(** * The consumer builder of snuba, and what its specification says of it

    A shallow embedding of [snuba/consumers/consumer_builder.py]: the
    [ConsumerBuilder] class, its constructor and the three methods that
    assemble a stream processor.  Dictionaries are finite maps over
    strings, Python floats are IEEE 754 binary64 numbers, exceptions are
    an error result, and the two effects the builder has (a log line,
    and the allocation of broker clients) are threaded through an
    explicit [world]. *)

From Stdlib Require Import ZArith String List Bool Lia.
From Stdlib Require Import Floats.SpecFloat.
From stdpp Require Import base option gmap strings.

Local Open Scope string_scope.
Local Open Scope Z_scope.

(** ** Python values the builder handles directly *)

Module Py.

(** The exception classes that can leave the builder. *)
Inductive exn : Type :=
| ConfigurationError
| OverflowError
| ZeroDivisionError
| IndexError
| AttributeError
| TypeError
| AssertionError
| Exception (cls : string).

Inductive result (A : Type) : Type :=
| Ok (a : A)
| Raise (e : exn).
Arguments Ok {A} a.
Arguments Raise {A} e.

(** Python floats are IEEE 754 binary64. *)
Definition prec : Z := 53.
Definition emax : Z := 1024.

(** [float(n)] for an int [n]: the nearest double, ties to even, or
    [OverflowError] when that is out of range. *)
Definition float_of_int (n : Z) : result spec_float :=
  match binary_normalize prec emax n 0 false with
  | S754_infinity _ => Raise OverflowError
  | f => Ok f
  end.

Definition float_is_zero (f : spec_float) : bool :=
  match f with
  | S754_zero _ => true
  | _ => false
  end.

(** [n / d] for an int [n] and a float [d]. *)
Definition int_truediv_float (n : Z) (d : spec_float) : result spec_float :=
  match float_of_int n with
  | Raise e => Raise e
  | Ok f =>
      if float_is_zero d then Raise ZeroDivisionError
      else Ok (SFdiv prec emax f d)
  end.

(** The float literal [1000.0]. *)
Definition float_1000 : spec_float := binary_normalize prec emax 1000 0 false.

(** Floats of the same representation. *)
Definition float_eqb (a b : spec_float) : bool :=
  match a, b with
  | S754_zero s1, S754_zero s2 => Bool.eqb s1 s2
  | S754_infinity s1, S754_infinity s2 => Bool.eqb s1 s2
  | S754_nan, S754_nan => true
  | S754_finite s1 m1 e1, S754_finite s2 m2 e2 =>
      Bool.eqb s1 s2 && Pos.eqb m1 m2 && Z.eqb e1 e2
  | _, _ => false
  end.

(** Whether [n] milliseconds, [n] a multiple of 1000, divide into exactly
    that number of seconds. *)
Definition whole_seconds (seconds : Z) : bool :=
  match int_truediv_float (1000 * seconds) float_1000, float_of_int seconds with
  | Ok a, Ok b => float_eqb a b
  | _, _ => false
  end.

(** [whole_seconds] on the [fuel] integers from [k] on. *)
Fixpoint whole_seconds_from (k : Z) (fuel : nat) : bool :=
  match fuel with
  | O => true
  | S fuel' => whole_seconds k && whole_seconds_from (k + 1) fuel'
  end.

(** What a call of [code()] returned: an int, or any other object, given
    by what comparing it with an int does. *)
Inductive answer : Type :=
| AnInt (n : Z)
| AnObject (eq_int : Z -> result bool).

(** The [code] attribute of an object: absent, present but not callable,
    or a method, given by what calling it does. *)
Inductive attribute : Type :=
| NoAttribute
| NotCallable
| Method (returns : result answer).

(** What an exception object may carry in [args]: an error object of
    confluent_kafka, or any other object. *)
Inductive value : Type :=
| KafkaError (code : Z)
| Object (code : attribute).

(** An exception object as the retry predicate sees it: an instance of
    confluent_kafka's [KafkaException] (or of a subclass), or of any
    other class. *)
Inductive exception : Type :=
| KafkaException (args : list value)
| OtherException (cls : string) (args : list value).

(** [v.code()] *)
Definition code (v : value) : result answer :=
  match v with
  | KafkaError c => Ok (AnInt c)
  | Object NoAttribute => Raise AttributeError
  | Object NotCallable => Raise TypeError
  | Object (Method returns) => returns
  end.

(** [r == n] for an int [n]. *)
Definition equals (r : answer) (n : Z) : result bool :=
  match r with
  | AnInt m => Ok (m =? n)
  | AnObject eq_int => eq_int n
  end.

(** [r in (n1, n2, ...)]: the items are compared in turn until one is
    equal. *)
Fixpoint in_tuple (r : answer) (items : list Z) : result bool :=
  match items with
  | [] => Ok false
  | n :: items' =>
      match equals r n with
      | Raise e => Raise e
      | Ok true => Ok true
      | Ok false => in_tuple r items'
      end
  end.

(** [args[0]] *)
Definition item0 (args : list value) : result value :=
  match args with
  | [] => Raise IndexError
  | v :: _ => Ok v
  end.

End Py.

Export Py(result, Ok, Raise).

(** The error codes of librdkafka that the builder names. *)
Module KafkaError.
Definition REQUEST_TIMED_OUT : Z := 7.
Definition NOT_COORDINATOR : Z := 16.
Definition _WAIT_COORD : Z := -180.
End KafkaError.

(** ** Objects the builder only passes along *)

Class Objects : Type := {
  Processor : Type;
  PreFilter : Type;
  DlqPolicyCreator : Type;
  MetricsBackend : Type;
  StatsCallback : Type;
  Message : Type;
  ProcessedMessage : Type
}.

Definition StorageKey : Type := string.
Definition StorageSetKey : Type := string.
Definition SnubaTopic : Type := string.
Definition handle : Type := nat.

(** ** Records *)

(** arroyo's [Topic]. It defines neither [__bool__] nor [__len__], so an
    instance is always true. *)
Module Topic.
Record t : Type := make { name : string }.
End Topic.

Module KafkaParameters.
Record t : Type := {
  raw_topic : option string;
  replacements_topic : option string;
  bootstrap_servers : option (list string);
  group_id : string;
  commit_log_topic : option string;
  auto_offset_reset : string;
  strict_offset_reset : option bool;
  queued_max_messages_kbytes : Z;
  queued_min_messages : Z
}.
End KafkaParameters.

Module ProcessingParameters.
Record t : Type := {
  processes : option Z;
  input_block_size : option Z;
  output_block_size : option Z
}.
End ProcessingParameters.

Module KafkaTopicSpec.
Record t : Type := { topic : SnubaTopic }.
End KafkaTopicSpec.

Module KafkaStreamLoader.
Record t `{Objects} : Type := {
  get_default_topic_spec : KafkaTopicSpec.t;
  get_replacement_topic_spec : option KafkaTopicSpec.t;
  get_commit_log_topic_spec : option KafkaTopicSpec.t;
  get_processor : Processor;
  get_pre_filter : option PreFilter;
  get_dead_letter_queue_policy_creator : option DlqPolicyCreator
}.
End KafkaStreamLoader.

Module TableWriter.
Record t `{Objects} : Type := { get_stream_loader : KafkaStreamLoader.t }.
End TableWriter.

Module WritableTableStorage.
Record t `{Objects} : Type := {
  get_storage_set_key : StorageSetKey;
  get_table_writer : TableWriter.t
}.
End WritableTableStorage.

(** The Python values found in a broker configuration dictionary and in
    the runtime configuration. *)
Inductive ConfigValue `{Objects} : Type :=
| CfgStr (s : string)
| CfgInt (n : Z)
| CfgFloat (f : spec_float)
| CfgBool (b : bool)
| CfgNone
| CfgCallable (f : StatsCallback).

(** Truth value of a configuration value. *)
Definition truthy `{Objects} (v : ConfigValue) : bool :=
match v with
| CfgStr s => negb (String.eqb s "")
| CfgInt n => negb (n =? 0)
| CfgFloat f => negb (Py.float_is_zero f)
| CfgBool b => b
| CfgNone => false
| CfgCallable _ => true
end.

(** [v > 0]: numbers compare with the int 0, anything else is a
    [TypeError]. *)
Definition gt_zero `{Objects} (v : ConfigValue) : result bool :=
match v with
| CfgInt n => Ok (0 <? n)
| CfgFloat f => Ok (SFltb (S754_zero false) f)
| CfgBool b => Ok b
| CfgStr _ | CfgNone | CfgCallable _ => Raise Py.TypeError
end.

Abbreviation BrokerConfig := (gmap string ConfigValue).

(** [d.update(new)] *)
Definition dict_update `{Objects} (d new : BrokerConfig) : BrokerConfig := new ∪ d.

(** An optional callable as a dictionary value. *)
Definition of_callback `{Objects} (cb : option StatsCallback) : ConfigValue :=
match cb with
| Some f => CfgCallable f
| None => CfgNone
end.

(** arroyo's retry policies. *)
Inductive RetryPolicy : Type :=
| BasicRetryPolicy (max_attempts : Z) (delay : Z)
    (suppression_test : Py.exception -> result bool)
| NoRetryPolicy.

Module CommitLogConfig.
Record t : Type := make {
  producer : handle;
  topic : Topic.t;
  group_id : string
}.
End CommitLogConfig.

(** The collector [build_batch_writer] returns, as what it is bound to. *)
Module BatchWriter.
Record t `{Objects} : Type := {
  table_writer : TableWriter.t;
  metrics : MetricsBackend;
  replacements_producer : option handle;
  replacements_topic : option Topic.t;
  slice_id : option Z;
  commit_log_config : option CommitLogConfig.t
}.
End BatchWriter.

Variant Initializer : Type := setup_sentry.

Module KafkaConsumerStrategyFactory.
Record t `{Objects} : Type := {
  prefilter : option PreFilter;
  process_message : Message -> ProcessedMessage;
  collector : BatchWriter.t;
  max_batch_size : Z;
  max_batch_time : spec_float;
  processes : option Z;
  input_block_size : option Z;
  output_block_size : option Z;
  initialize_parallel_transform : Initializer;
  dead_letter_queue_policy_creator : option DlqPolicyCreator
}.
End KafkaConsumerStrategyFactory.

(** The strategy factories the builder returns: the one of snuba, bare
    or wrapped by arroyo's profiler. *)
Inductive ProcessingStrategyFactory `{Objects} : Type :=
| Plain (f : KafkaConsumerStrategyFactory.t)
| ProcessingStrategyProfilerWrapperFactory
    (inner : ProcessingStrategyFactory) (output_directory : string).

Module KafkaConsumer.
Record t `{Objects} : Type := {
  client : handle;
  configuration : BrokerConfig;
  commit_retry_policy : RetryPolicy
}.
End KafkaConsumer.

Variant CommitPolicy : Type := IMMEDIATE.

Module StreamProcessor.
Record t `{Objects} : Type := make {
  consumer : KafkaConsumer.t;
  topic : Topic.t;
  processor_factory : ProcessingStrategyFactory;
  commit_policy : CommitPolicy
}.
Arguments make {_} consumer topic processor_factory commit_policy.
End StreamProcessor.

(** ** Effects *)

Inductive event `{Objects} : Type :=
| EvLogInfo (log_level : ConfigValue)
| EvProducer (config : BrokerConfig) (h : handle)
| EvKafkaConsumer (config : BrokerConfig) (policy : RetryPolicy) (h : handle).

Record world `{Objects} : Type := {
  trace : list event;
  next_handle : handle
}.

Definition M `{Objects} (A : Type) : Type := world -> world * result A.

#[global] Instance M_ret `{Objects} : MRet M :=
  fun A (a : A) w => (w, Ok a).

#[global] Instance M_bind `{Objects} : MBind M :=
  fun A B (f : A -> M B) (m : M A) w =>
    match m w with
    | (w', Ok a) => f a w'
    | (w', Raise e) => (w', Raise e)
    end.

Definition lift `{Objects} {A : Type} (r : result A) : M A := fun w => (w, r).

(** Appends an event to the trace. *)
Definition emit `{Objects} (ev : event) : M unit :=
  fun w => ({| trace := trace w ++ [ev]; next_handle := next_handle w |}, Ok tt).

(** Allocates a client handle. *)
Definition fresh `{Objects} : M handle :=
  fun w => ({| trace := trace w; next_handle := S (next_handle w) |},
            Ok (next_handle w)).

(** ** Collaborators

    The functions of snuba and of the client libraries that the builder
    calls and that live outside [consumer_builder.py]. *)

Class Collaborators `{Objects} : Type := {
  get_writable_storage : StorageKey -> result WritableTableStorage.t;
  (** whether a slice id is valid for a storage set *)
  slice_is_valid : StorageSetKey -> Z -> bool;
  (** [KafkaTopicSpec.get_physical_topic_name] *)
  get_physical_topic_name : KafkaTopicSpec.t -> option Z -> result string;
  get_default_kafka_configuration :
    SnubaTopic -> option Z -> option (list string) -> BrokerConfig;
  (** what the producer configuration holds before the overrides *)
  producer_defaults :
    SnubaTopic -> option Z -> option (list string) -> BrokerConfig;
  build_kafka_consumer_configuration :
    SnubaTopic -> option (list string) -> string -> option Z -> string ->
    option bool -> Z -> Z -> BrokerConfig;
  (** [snuba.state.get_config key default] *)
  get_config : string -> ConfigValue -> ConfigValue;
  (** [snuba.consumers.consumer.process_message] *)
  process_message :
    Processor -> string -> SnubaTopic -> bool -> Message -> ProcessedMessage;
  (** the error, if any, with which the client library refuses a
      producer, respectively consumer, configuration *)
  producer_refused : BrokerConfig -> option Py.exn;
  consumer_refused : BrokerConfig -> option Py.exn;
  (** the error, if any, with which arroyo's profiler wrapper refuses an
      output directory (it asserts that the directory exists) *)
  profiler_refused : string -> option Py.exn;
  (** the error, if any, with which the stream processor fails to
      subscribe a consumer to a topic *)
  subscription_refused : KafkaConsumer.t -> Topic.t -> option Py.exn
}.

Section collaborators.
Context `{Collaborators}.

(** Modelled from the spec: [validate_passed_slice] of
    [snuba.datasets.slicing] is not among the sources.  A slice id, if
    present, must be valid for the storage set, and the call fails with
    [ConfigurationError] otherwise. *)
Definition validate_passed_slice
    (storage_set : StorageSetKey) (slice_id : option Z) : result unit :=
  match slice_id with
  | None => Ok tt
  | Some s =>
      if slice_is_valid storage_set s then Ok tt
      else Raise Py.ConfigurationError
  end.

(** Modelled from the spec: [build_kafka_producer_configuration] of
    [snuba.utils.streams.configuration_builder] is not among the
    sources.  The producer configuration is made from the topic, the
    slice id and the bootstrap servers, and is then overridden with
    [override_params]. *)
Definition build_kafka_producer_configuration
    (topic : SnubaTopic) (slice_id : option Z)
    (bootstrap_servers : option (list string))
    (override_params : BrokerConfig) : BrokerConfig :=
  dict_update (producer_defaults topic slice_id bootstrap_servers)
              override_params.

(** [logger.info(...)] of the broker's log level. *)
Definition logger_info (log_level : ConfigValue) : M unit :=
  emit (EvLogInfo log_level).

(** [Producer(config)] *)
Definition Producer (config : BrokerConfig) : M handle :=
  match producer_refused config with
  | Some e => lift (Raise e)
  | None => h ← fresh; _ ← emit (EvProducer config h); mret h
  end.

(** [KafkaConsumer(configuration, commit_retry_policy=...)] *)
Definition KafkaConsumer_new
    (configuration : BrokerConfig) (commit_retry_policy : RetryPolicy)
    : M KafkaConsumer.t :=
  match consumer_refused configuration with
  | Some e => lift (Raise e)
  | None =>
      h ← fresh;
      _ ← emit (EvKafkaConsumer configuration commit_retry_policy h);
      mret {| KafkaConsumer.client := h;
              KafkaConsumer.configuration := configuration;
              KafkaConsumer.commit_retry_policy := commit_retry_policy |}
  end.

(** [ProcessingStrategyProfilerWrapperFactory(strategy_factory, path)] *)
Definition ProfilerWrapper_new
    (strategy_factory : ProcessingStrategyFactory) (output_directory : string)
    : result ProcessingStrategyFactory :=
  match profiler_refused output_directory with
  | Some e => Raise e
  | None =>
      Ok (ProcessingStrategyProfilerWrapperFactory strategy_factory output_directory)
  end.

(** [StreamProcessor(consumer, topic, processor_factory, commit_policy)]:
    the constructor subscribes the consumer to the topic. *)
Definition StreamProcessor_new
    (consumer : KafkaConsumer.t) (topic : Topic.t)
    (processor_factory : ProcessingStrategyFactory) (commit_policy : CommitPolicy)
    : M StreamProcessor.t :=
  match subscription_refused consumer topic with
  | Some e => lift (Raise e)
  | None => mret (StreamProcessor.make consumer topic processor_factory commit_policy)
  end.

(** Modelled from the spec: [build_batch_writer] of
    [snuba.consumers.consumer] is not among the sources.  The collector
    is bound to the storage writer, the metrics sink, an optional
    replacements producer and topic, an optional slice and an optional
    commit-log configuration. *)
Definition build_batch_writer
    (table_writer : TableWriter.t) (metrics : MetricsBackend)
    (replacements_producer : option handle)
    (replacements_topic : option Topic.t)
    (slice_id : option Z)
    (commit_log_config : option CommitLogConfig.t) : BatchWriter.t :=
  {| BatchWriter.table_writer := table_writer;
     BatchWriter.metrics := metrics;
     BatchWriter.replacements_producer := replacements_producer;
     BatchWriter.replacements_topic := replacements_topic;
     BatchWriter.slice_id := slice_id;
     BatchWriter.commit_log_config := commit_log_config |}.

End collaborators.

(** ** The builder *)

Module ConsumerBuilder.

(** The attributes [__init__] sets on [self]. *)
Record t `{Objects} : Type := {
  storage : WritableTableStorage.t;
  bootstrap_servers : option (list string);
  consumer_group : string;
  broker_config : BrokerConfig;
  producer_broker_config : BrokerConfig;
  raw_topic : Topic.t;
  replacements_topic : option Topic.t;
  commit_log_topic : option Topic.t;
  stats_callback : option StatsCallback;
  producer : handle;
  metrics : MetricsBackend;
  max_batch_size : Z;
  max_batch_time_ms : Z;
  group_id : string;
  auto_offset_reset : string;
  strict_offset_reset : option bool;
  queued_max_messages_kbytes : Z;
  queued_min_messages : Z;
  processes : option Z;
  input_block_size : option Z;
  output_block_size : option Z;
  __profile_path : option string;
  __commit_retry_policy : RetryPolicy;
  __validate_schema : bool
}.

(** The lambda handed to [BasicRetryPolicy]:
    [isinstance(e, KafkaException) and e.args[0].code() in (...)]. *)
Definition commit_retry_test (e : Py.exception) : result bool :=
match e with
| Py.KafkaException args =>
    match Py.item0 args with
    | Raise x => Raise x
    | Ok v =>
        match Py.code v with
        | Raise x => Raise x
        | Ok r =>
            Py.in_tuple r [KafkaError.REQUEST_TIMED_OUT;
                           KafkaError.NOT_COORDINATOR;
                           KafkaError._WAIT_COORD]
        end
    end
| Py.OtherException _ _ => Ok false
end.

Section methods.
Context `{Collaborators}.

(** A keyword argument left out is [None] here; [validate_schema] then
    takes its default [False]. The other optional arguments default to
    Python's [None]. *)
Definition __init__
    (storage_key : StorageKey)
    (kafka_params : KafkaParameters.t)
    (processing_params : ProcessingParameters.t)
    (max_batch_size : Z)
    (max_batch_time_ms : Z)
    (metrics : MetricsBackend)
    (slice_id : option Z)
    (stats_callback : option StatsCallback)
    (commit_retry_policy : option RetryPolicy)
    (validate_schema : option bool)
    (profile_path : option string) : M t :=
storage ← lift (get_writable_storage storage_key);
let topic :=
  KafkaTopicSpec.topic
    (KafkaStreamLoader.get_default_topic_spec
       (TableWriter.get_stream_loader
          (WritableTableStorage.get_table_writer storage))) in
_ ← lift (validate_passed_slice
            (WritableTableStorage.get_storage_set_key storage) slice_id);
let broker_config :=
  get_default_kafka_configuration
    topic slice_id (KafkaParameters.bootstrap_servers kafka_params) in
_ ← logger_info (default (CfgInt 6) (broker_config !! "log_level"));
let producer_broker_config :=
  build_kafka_producer_configuration
    topic slice_id (KafkaParameters.bootstrap_servers kafka_params)
    {[ "partitioner" := CfgStr "consistent";
       "message.max.bytes" := CfgInt 50000000 ]} in
let stream_loader :=
  TableWriter.get_stream_loader
    (WritableTableStorage.get_table_writer storage) in
raw_topic ←
  match KafkaParameters.raw_topic kafka_params with
  | Some name => mret (Topic.make name)
  | None =>
      let default_topic_spec :=
        KafkaStreamLoader.get_default_topic_spec stream_loader in
      name ← lift (get_physical_topic_name default_topic_spec slice_id);
      mret (Topic.make name)
  end;
replacements_topic ←
  match KafkaParameters.replacements_topic kafka_params with
  | Some name => mret (Some (Topic.make name))
  | None =>
      match KafkaStreamLoader.get_replacement_topic_spec stream_loader with
      | Some replacement_topic_spec =>
          name ← lift (get_physical_topic_name replacement_topic_spec slice_id);
          mret (Some (Topic.make name))
      | None => mret None
      end
  end;
commit_log_topic ←
  match KafkaParameters.commit_log_topic kafka_params with
  | Some name => mret (Some (Topic.make name))
  | None =>
      match KafkaStreamLoader.get_commit_log_topic_spec stream_loader with
      | Some commit_log_topic_spec =>
          name ← lift (get_physical_topic_name commit_log_topic_spec slice_id);
          mret (Some (Topic.make name))
      | None => mret None
      end
  end;
producer ← Producer producer_broker_config;
let commit_retry_policy :=
  match commit_retry_policy with
  | None => BasicRetryPolicy 3 1 commit_retry_test
  | Some policy => policy
  end in
mret {| storage := storage;
        bootstrap_servers := KafkaParameters.bootstrap_servers kafka_params;
        consumer_group := KafkaParameters.group_id kafka_params;
        broker_config := broker_config;
        producer_broker_config := producer_broker_config;
        raw_topic := raw_topic;
        replacements_topic := replacements_topic;
        commit_log_topic := commit_log_topic;
        stats_callback := stats_callback;
        producer := producer;
        metrics := metrics;
        max_batch_size := max_batch_size;
        max_batch_time_ms := max_batch_time_ms;
        group_id := KafkaParameters.group_id kafka_params;
        auto_offset_reset := KafkaParameters.auto_offset_reset kafka_params;
        strict_offset_reset := KafkaParameters.strict_offset_reset kafka_params;
        queued_max_messages_kbytes :=
          KafkaParameters.queued_max_messages_kbytes kafka_params;
        queued_min_messages := KafkaParameters.queued_min_messages kafka_params;
        processes := ProcessingParameters.processes processing_params;
        input_block_size :=
          ProcessingParameters.input_block_size processing_params;
        output_block_size :=
          ProcessingParameters.output_block_size processing_params;
        __profile_path := profile_path;
        __commit_retry_policy := commit_retry_policy;
        __validate_schema := default false validate_schema |}.

Definition __build_consumer
    (self : t) (strategy_factory : ProcessingStrategyFactory)
    (slice_id : option Z) : M StreamProcessor.t :=
let topic :=
  KafkaTopicSpec.topic
    (KafkaStreamLoader.get_default_topic_spec
       (TableWriter.get_stream_loader
          (WritableTableStorage.get_table_writer (storage self)))) in
let configuration :=
  build_kafka_consumer_configuration
    topic (bootstrap_servers self) (group_id self) slice_id
    (auto_offset_reset self) (strict_offset_reset self)
    (queued_max_messages_kbytes self) (queued_min_messages self) in
let stats_collection_frequency_ms :=
  get_config ("stats_collection_freq_ms_" +:+ group_id self)
             (get_config "stats_collection_freq_ms" (CfgInt 0)) in
(* [x and x > 0]: the comparison is made only when [x] is true *)
collect ← lift (if truthy stats_collection_frequency_ms
                then gt_zero stats_collection_frequency_ms
                else Ok false);
let configuration :=
  if collect : bool
  then
    dict_update configuration
      {[ "statistics.interval.ms" := stats_collection_frequency_ms;
         "stats_cb" := of_callback (stats_callback self) ]}
  else configuration in
consumer ← KafkaConsumer_new configuration (__commit_retry_policy self);
StreamProcessor_new consumer (raw_topic self) strategy_factory IMMEDIATE.

Definition __build_streaming_strategy_factory
    (self : t) (slice_id : option Z) : result ProcessingStrategyFactory :=
let table_writer := WritableTableStorage.get_table_writer (storage self) in
let stream_loader := TableWriter.get_stream_loader table_writer in
let logical_topic :=
  KafkaTopicSpec.topic (KafkaStreamLoader.get_default_topic_spec stream_loader) in
let processor := KafkaStreamLoader.get_processor stream_loader in
(* [if self.commit_log_topic:] a [Topic] is always true, so the test
   is whether there is one *)
let commit_log_config :=
  match commit_log_topic self with
  | Some commit_log_topic =>
      Some (CommitLogConfig.make (producer self) commit_log_topic (group_id self))
  | None => None
  end in
match Py.int_truediv_float (max_batch_time_ms self) Py.float_1000 with
| Raise e => Raise e
| Ok max_batch_time =>
    let strategy_factory :=
      Plain
        {| KafkaConsumerStrategyFactory.prefilter :=
             KafkaStreamLoader.get_pre_filter stream_loader;
           KafkaConsumerStrategyFactory.process_message :=
             process_message processor (consumer_group self) logical_topic
                             (__validate_schema self);
           KafkaConsumerStrategyFactory.collector :=
             build_batch_writer
               table_writer (metrics self)
               (match replacements_topic self with
                | Some _ => Some (producer self)
                | None => None
                end)
               (replacements_topic self)
               slice_id
               commit_log_config;
           KafkaConsumerStrategyFactory.max_batch_size := max_batch_size self;
           KafkaConsumerStrategyFactory.max_batch_time := max_batch_time;
           KafkaConsumerStrategyFactory.processes := processes self;
           KafkaConsumerStrategyFactory.input_block_size := input_block_size self;
           KafkaConsumerStrategyFactory.output_block_size :=
             output_block_size self;
           KafkaConsumerStrategyFactory.initialize_parallel_transform :=
             setup_sentry;
           KafkaConsumerStrategyFactory.dead_letter_queue_policy_creator :=
             KafkaStreamLoader.get_dead_letter_queue_policy_creator
               stream_loader |} in
    match __profile_path self with
    | Some path => ProfilerWrapper_new strategy_factory path
    | None => Ok strategy_factory
    end
end.

(** [slice_id] defaults to Python's [None]. *)
Definition build_base_consumer
    (self : t) (slice_id : option Z) : M StreamProcessor.t :=
strategy_factory ← lift (__build_streaming_strategy_factory self slice_id);
__build_consumer self strategy_factory slice_id.

End methods.
End ConsumerBuilder.

(** ** Vocabulary of the specification *)

Section vocabulary.
Context `{Collaborators}.

(** The rule the specification gives for each topic: the override when
    there is one, else the physical name of the declared topic spec under
    the slice id, else no topic. *)
Definition topic_rule
    (override : option string) (spec : option KafkaTopicSpec.t)
    (slice_id : option Z) : result (option Topic.t) :=
match override, spec with
| Some name, _ => Ok (Some (Topic.make name))
| None, Some s =>
    match get_physical_topic_name s slice_id with
    | Ok name => Ok (Some (Topic.make name))
    | Raise e => Raise e
    end
| None, None => Ok None
end.

(** The stream loader a storage declares. *)
Definition stream_loader_of (st : WritableTableStorage.t) : KafkaStreamLoader.t :=
TableWriter.get_stream_loader (WritableTableStorage.get_table_writer st).

(** The logical name of the default topic of a storage. *)
Definition logical_topic_of (st : WritableTableStorage.t) : SnubaTopic :=
KafkaTopicSpec.topic (KafkaStreamLoader.get_default_topic_spec (stream_loader_of st)).

(** The strategy factory under the profiling wrappers, if any. *)
Fixpoint pipeline (f : ProcessingStrategyFactory) : KafkaConsumerStrategyFactory.t :=
match f with
| Plain k => k
| ProcessingStrategyProfilerWrapperFactory inner _ => pipeline inner
end.

(** The statistics interval a consumer group is configured with: its own
    setting, and when that is not set the global one, 0 by default. *)
Definition stats_interval (group_id : string) : ConfigValue :=
get_config ("stats_collection_freq_ms_" +:+ group_id)
           (get_config "stats_collection_freq_ms" (CfgInt 0)).

(** Whether collecting statistics is decided for an interval; a
    [TypeError] for a true value that is not a number. *)
Definition collects (interval : ConfigValue) : result bool :=
if truthy interval then gt_zero interval else Ok false.

(** The consumer configuration of a builder before the statistics
    entries. *)
Definition consumer_base
    (self : ConsumerBuilder.t) (slice_id : option Z) : BrokerConfig :=
build_kafka_consumer_configuration
  (logical_topic_of (ConsumerBuilder.storage self))
  (ConsumerBuilder.bootstrap_servers self) (ConsumerBuilder.group_id self)
  slice_id
  (ConsumerBuilder.auto_offset_reset self)
  (ConsumerBuilder.strict_offset_reset self)
  (ConsumerBuilder.queued_max_messages_kbytes self)
  (ConsumerBuilder.queued_min_messages self).

(** The consumer configuration [__build_consumer] hands to the client,
    with or without the statistics entries. *)
Definition consumer_configuration
    (self : ConsumerBuilder.t) (slice_id : option Z) (collect : bool)
  : BrokerConfig :=
if collect
then dict_update (consumer_base self slice_id)
       {[ "statistics.interval.ms" := stats_interval (ConsumerBuilder.group_id self);
          "stats_cb" := of_callback (ConsumerBuilder.stats_callback self) ]}
else consumer_base self slice_id.

(** The producers created along a trace, oldest first. *)
Definition producers_created (tr : list event) : list (BrokerConfig * handle) :=
omap (fun ev => match ev with
                | EvProducer c h => Some (c, h)
                | _ => None
                end) tr.

End vocabulary.

(** A strictly positive number. *)
Definition positive `{Objects} (v : ConfigValue) : Prop :=
match v with
| CfgInt n => 0 < n
| CfgFloat f => SFltb (S754_zero false) f = true
| CfgBool b => b = true
| CfgStr _ | CfgNone | CfgCallable _ => False
end.

(** The error codes the default retry policy retries. *)
Definition transient_code (c : Z) : Prop :=
c = KafkaError.REQUEST_TIMED_OUT \/
c = KafkaError.NOT_COORDINATOR \/
c = KafkaError._WAIT_COORD.

(** The causes the default retry policy retries: the broker exceptions
    whose first argument reports one of these codes. *)
Definition transient (e : Py.exception) : Prop :=
exists v rest r,
  e = Py.KafkaException (v :: rest) /\
  Py.code v = Ok r /\
  Py.in_tuple r [KafkaError.REQUEST_TIMED_OUT;
                 KafkaError.NOT_COORDINATOR;
                 KafkaError._WAIT_COORD] = Ok true.

(** ** A small installation, to run the builder on *)

Module Example.

Definition objects : Objects := {|
  Processor := string;
  PreFilter := string;
  DlqPolicyCreator := string;
  MetricsBackend := string;
  StatsCallback := string;
  Message := string;
  ProcessedMessage := string * string * SnubaTopic * bool * string
|}.

#[local] Existing Instance objects.

Definition loader
    (replacement commit_log : option KafkaTopicSpec.t) : @KafkaStreamLoader.t objects :=
{| KafkaStreamLoader.get_default_topic_spec := {| KafkaTopicSpec.topic := "events" |};
   KafkaStreamLoader.get_replacement_topic_spec := replacement;
   KafkaStreamLoader.get_commit_log_topic_spec := commit_log;
   KafkaStreamLoader.get_processor := ("ErrorsProcessor" : @Processor objects);
   KafkaStreamLoader.get_pre_filter := None;
   KafkaStreamLoader.get_dead_letter_queue_policy_creator := None |}.

(** A storage with the three topics declared, in a storage set with two
    slices. *)
Definition errors : @WritableTableStorage.t objects :=
{| WritableTableStorage.get_storage_set_key := "events";
   WritableTableStorage.get_table_writer :=
     {| TableWriter.get_stream_loader :=
          loader (Some {| KafkaTopicSpec.topic := "event-replacements" |})
                 (Some {| KafkaTopicSpec.topic := "snuba-commit-log" |}) |} |}.

(** A storage with the default topic only. *)
Definition metrics_raw : @WritableTableStorage.t objects :=
{| WritableTableStorage.get_storage_set_key := "metrics";
   WritableTableStorage.get_table_writer :=
     {| TableWriter.get_stream_loader := loader None None |} |}.

(** Physical names are known for the two slices only. *)
Definition physical_name (spec : KafkaTopicSpec.t) (slice_id : option Z)
  : result string :=
match slice_id with
| None => Ok (KafkaTopicSpec.topic spec)
| Some 0 => Ok (KafkaTopicSpec.topic spec +:+ "-0")
| Some 1 => Ok (KafkaTopicSpec.topic spec +:+ "-1")
| Some _ => Raise (Py.Exception "KeyError")
end.

Definition collaborators : @Collaborators objects := {|
  get_writable_storage key :=
    if String.eqb key "errors" then Ok errors
    else if String.eqb key "metrics_raw" then Ok metrics_raw
    else Raise (Py.Exception "KeyError");
  slice_is_valid storage_set s :=
    String.eqb storage_set "events" && (0 <=? s) && (s <? 2);
  get_physical_topic_name spec slice_id := physical_name spec slice_id;
  get_default_kafka_configuration topic slice_id servers :=
    {[ "bootstrap.servers" := CfgStr "127.0.0.1:9092" ]};
  producer_defaults topic slice_id servers :=
    {[ "bootstrap.servers" := CfgStr "127.0.0.1:9092";
       "partitioner" := CfgStr "random";
       "message.max.bytes" := CfgInt 1000000 ]};
  build_kafka_consumer_configuration
      topic servers group slice_id reset strict qmax qmin :=
    {[ "bootstrap.servers" := CfgStr "127.0.0.1:9092";
       "group.id" := CfgStr group;
       "auto.offset.reset" := CfgStr reset;
       "queued.max.messages.kbytes" := CfgInt qmax;
       "queued.min.messages" := CfgInt qmin;
       "slice" := match slice_id with Some s => CfgInt s | None => CfgNone end ]};
  get_config key default :=
    if String.eqb key "stats_collection_freq_ms_ingest-group" then CfgInt 5000
    else default;
  process_message processor group topic validate message :=
    (processor, group, topic, validate, message);
  producer_refused _ := None;
  consumer_refused _ := None;
  (* the one directory there is *)
  profiler_refused path :=
    if String.eqb path "/tmp/profiles" then None else Some Py.AssertionError;
  subscription_refused _ _ := None
|}.

Definition params (group : string) (raw replacements commit_log : option string)
  : KafkaParameters.t :=
{| KafkaParameters.raw_topic := raw;
   KafkaParameters.replacements_topic := replacements;
   KafkaParameters.bootstrap_servers := None;
   KafkaParameters.group_id := group;
   KafkaParameters.commit_log_topic := commit_log;
   KafkaParameters.auto_offset_reset := "earliest";
   KafkaParameters.strict_offset_reset := None;
   KafkaParameters.queued_max_messages_kbytes := 10000;
   KafkaParameters.queued_min_messages := 1000 |}.

Definition single_process : ProcessingParameters.t :=
{| ProcessingParameters.processes := None;
   ProcessingParameters.input_block_size := None;
   ProcessingParameters.output_block_size := None |}.

Definition start : @world objects := {| trace := []; next_handle := 0%nat |}.

(** The builder for a storage key, topic overrides and slice id, with
    everything else fixed. *)
Definition init (key : StorageKey) (kp : KafkaParameters.t) (slice_id : option Z)
    (policy : option RetryPolicy) (validate : option bool)
  : @M objects (@ConsumerBuilder.t objects) :=
@ConsumerBuilder.__init__ objects collaborators
  key kp single_process 50000 2000 "metrics" slice_id None policy validate None.

(** The consumer of a builder. *)
Definition build (self : @ConsumerBuilder.t objects) (slice_id : option Z)
  : @M objects (@StreamProcessor.t objects) :=
@ConsumerBuilder.build_base_consumer objects collaborators self slice_id.

End Example.

(** ** Clients and settings, for the behaviour on failure *)

(** No client has been created between two worlds: the same handles are
    allocated and the same producers exist. *)
Definition no_client_since `{Objects} (w w' : world) : Prop :=
next_handle w' = next_handle w /\
producers_created (trace w') = producers_created (trace w).

(** A true value that does not compare with a number. *)
Definition not_a_number `{Objects} (v : ConfigValue) : Prop :=
match v with
| CfgStr s => s <> ""
| CfgCallable _ => True
| CfgInt _ | CfgFloat _ | CfgBool _ | CfgNone => False
end.

(** The world once the constructor has logged the broker's log level. *)
Definition logged `{Collaborators}
    (st : WritableTableStorage.t) (slice_id : option Z)
    (servers : option (list string)) (w : world) : world :=
{| trace :=
     trace w ++
     [EvLogInfo
        (default (CfgInt 6)
           (get_default_kafka_configuration (logical_topic_of st) slice_id servers
            !! "log_level"))];
   next_handle := next_handle w |}.

(** An installation that can be made to fail: the physical name of the
    replacements topic is not known under slice 1, every setting of the
    runtime configuration holds [setting], and the client library
    refuses producers, consumers and subscriptions with the errors
    given, if any. *)
Module Faulty.

Definition physical_name (spec : KafkaTopicSpec.t) (slice_id : option Z)
  : result string :=
match slice_id with
| Some 1 =>
    if String.eqb (KafkaTopicSpec.topic spec) "event-replacements"
    then Raise (Py.Exception "KeyError")
    else Example.physical_name spec slice_id
| _ => Example.physical_name spec slice_id
end.

Definition collaborators_with
    (setting : @ConfigValue Example.objects)
    (producer_error consumer_error subscription_error : option Py.exn)
  : @Collaborators Example.objects := {|
  get_writable_storage := @get_writable_storage _ Example.collaborators;
  slice_is_valid := @slice_is_valid _ Example.collaborators;
  get_physical_topic_name := physical_name;
  get_default_kafka_configuration :=
    @get_default_kafka_configuration _ Example.collaborators;
  producer_defaults := @producer_defaults _ Example.collaborators;
  build_kafka_consumer_configuration :=
    @build_kafka_consumer_configuration _ Example.collaborators;
  get_config key default := setting;
  process_message := @process_message _ Example.collaborators;
  producer_refused _ := producer_error;
  consumer_refused _ := consumer_error;
  profiler_refused := @profiler_refused _ Example.collaborators;
  subscription_refused _ _ := subscription_error
|}.

Definition collaborators
    (setting : @ConfigValue Example.objects)
    (producer_error consumer_error : option Py.exn)
  : @Collaborators Example.objects :=
collaborators_with setting producer_error consumer_error None.

End Faulty.

(** * Properties *)

(** ** Stepping through the builder's monad *)

Section monad.
Context `{Objects}.
Implicit Types (w : world).

Lemma bind_Ok_inv {A B : Type} (m : M A) (f : A -> M B) w w' (b : B) :
  (m ≫= f) w = (w', Ok b) ->
  exists a w1, m w = (w1, Ok a) /\ f a w1 = (w', Ok b).
Proof.
  unfold mbind, M_bind. destruct (m w) as [w1 [a|e]]; intros Hm.
  - exists a, w1. split; [reflexivity | exact Hm].
  - discriminate Hm.
Qed.

Lemma bind_Raise {A B : Type} (m : M A) (f : A -> M B) w w' (e : Py.exn) :
  m w = (w', Raise e) -> (m ≫= f) w = (w', Raise e).
Proof. unfold mbind, M_bind. intros ->. reflexivity. Qed.

Lemma bind_Ok {A B : Type} (m : M A) (f : A -> M B) w w' (a : A) :
  m w = (w', Ok a) -> (m ≫= f) w = f a w'.
Proof. unfold mbind, M_bind. intros ->. reflexivity. Qed.

Lemma lift_Ok_inv {A : Type} (r : result A) w w' (a : A) :
  lift r w = (w', Ok a) -> r = Ok a /\ w' = w.
Proof. unfold lift. intros [= -> ->]. split; reflexivity. Qed.

Lemma ret_Ok_inv {A : Type} (x a : A) w w' :
  (mret x : M A) w = (w', Ok a) -> a = x /\ w' = w.
Proof. unfold mret, M_ret. intros [= -> ->]. split; reflexivity. Qed.

End monad.

Section clients.
Context `{Collaborators}.
Implicit Types (w : world).

Lemma Producer_inv (config : BrokerConfig) w w' (h : handle) :
  Producer config w = (w', Ok h) ->
  producer_refused config = None /\
  h = next_handle w /\
  w' = {| trace := trace w ++ [EvProducer config (next_handle w)];
          next_handle := S (next_handle w) |}.
Proof.
  unfold Producer. destruct (producer_refused config) as [e|].
  - intros Hr. apply lift_Ok_inv in Hr as [Hr _]. discriminate Hr.
  - cbv [mbind M_bind fresh emit mret M_ret]. cbn.
    intros [= <- <-]. repeat split.
Qed.

Lemma KafkaConsumer_new_inv (config : BrokerConfig) (policy : RetryPolicy)
    w w' (c : KafkaConsumer.t) :
  KafkaConsumer_new config policy w = (w', Ok c) ->
  consumer_refused config = None /\
  c = {| KafkaConsumer.client := next_handle w;
         KafkaConsumer.configuration := config;
         KafkaConsumer.commit_retry_policy := policy |} /\
  w' = {| trace := trace w ++ [EvKafkaConsumer config policy (next_handle w)];
          next_handle := S (next_handle w) |}.
Proof.
  unfold KafkaConsumer_new. destruct (consumer_refused config) as [e|].
  - intros Hr. apply lift_Ok_inv in Hr as [Hr _]. discriminate Hr.
  - cbv [mbind M_bind fresh emit mret M_ret]. cbn.
    intros [= <- <-]. repeat split.
Qed.

Lemma StreamProcessor_new_inv (consumer : KafkaConsumer.t) (topic : Topic.t)
    (factory : ProcessingStrategyFactory) (policy : CommitPolicy)
    w w' (sp : StreamProcessor.t) :
  StreamProcessor_new consumer topic factory policy w = (w', Ok sp) ->
  subscription_refused consumer topic = None /\
  sp = StreamProcessor.make consumer topic factory policy /\
  w' = w.
Proof.
  unfold StreamProcessor_new. destruct (subscription_refused consumer topic) as [e|].
  - intros Hr. apply lift_Ok_inv in Hr as [Hr _]. discriminate Hr.
  - intros Hr. apply ret_Ok_inv in Hr as [-> ->]. repeat split.
Qed.

Lemma ProfilerWrapper_new_inv (factory wrapped : ProcessingStrategyFactory)
    (path : string) :
  ProfilerWrapper_new factory path = Ok wrapped ->
  profiler_refused path = None /\
  wrapped = ProcessingStrategyProfilerWrapperFactory factory path.
Proof.
  unfold ProfilerWrapper_new. destruct (profiler_refused path) as [e|].
  - discriminate.
  - intros [= <-]. split; reflexivity.
Qed.

Lemma topic_rule_override (name : string) spec slice_id :
  topic_rule (Some name) spec slice_id = Ok (Some (Topic.make name)).
Proof. reflexivity. Qed.

Lemma topic_rule_derived (s : KafkaTopicSpec.t) slice_id (name : string) :
  get_physical_topic_name s slice_id = Ok name ->
  topic_rule None (Some s) slice_id = Ok (Some (Topic.make name)).
Proof. unfold topic_rule. intros ->. reflexivity. Qed.

Lemma topic_rule_absent slice_id : topic_rule None None slice_id = Ok None.
Proof. reflexivity. Qed.

End clients.

(** ** What a successful construction has done *)

Section construction.
Context `{Collaborators}.
Implicit Types (w : world) (self : ConsumerBuilder.t).

(** The overrides the builder forces on the producer configuration. *)
Local Abbreviation forced :=
  ({[ "partitioner" := CfgStr "consistent";
      "message.max.bytes" := CfgInt 50000000 ]} : BrokerConfig).

Lemma raw_topic_inv (override : option string) (spec : KafkaTopicSpec.t)
    slice w w' (t : Topic.t) :
  match override with
  | Some name => mret (Topic.make name)
  | None => name ← lift (get_physical_topic_name spec slice); mret (Topic.make name)
  end w = (w', Ok t) ->
  topic_rule override (Some spec) slice = Ok (Some t) /\ w' = w.
Proof.
  unfold topic_rule. destruct override as [name|]; intros Hrun.
  - apply ret_Ok_inv in Hrun as [-> ->]. split; reflexivity.
  - apply bind_Ok_inv in Hrun as (name & w1 & Hname & Hrun).
    apply lift_Ok_inv in Hname as [-> ->].
    apply ret_Ok_inv in Hrun as [-> ->]. split; reflexivity.
Qed.

Lemma optional_topic_inv (override : option string) (spec : option KafkaTopicSpec.t)
    slice w w' (t : option Topic.t) :
  match override with
  | Some name => mret (Some (Topic.make name))
  | None =>
      match spec with
      | Some s =>
          name ← lift (get_physical_topic_name s slice);
          mret (Some (Topic.make name))
      | None => mret None
      end
  end w = (w', Ok t) ->
  topic_rule override spec slice = Ok t /\ w' = w.
Proof.
  unfold topic_rule. destruct override as [name|]; [|destruct spec as [s|]];
    intros Hrun.
  - apply ret_Ok_inv in Hrun as [-> ->]. split; reflexivity.
  - apply bind_Ok_inv in Hrun as (name & w1 & Hname & Hrun).
    apply lift_Ok_inv in Hname as [-> ->].
    apply ret_Ok_inv in Hrun as [-> ->]. split; reflexivity.
  - apply ret_Ok_inv in Hrun as [-> ->]. split; reflexivity.
Qed.

Lemma init_inv sk kp pp mbs mbt metrics slice cb pol vs path w w' self :
  ConsumerBuilder.__init__ sk kp pp mbs mbt metrics slice cb pol vs path w
    = (w', Ok self) ->
  exists st raw repl cl,
    let loader := stream_loader_of st in
    let broker :=
      get_default_kafka_configuration
        (logical_topic_of st) slice (KafkaParameters.bootstrap_servers kp) in
    let prod :=
      build_kafka_producer_configuration
        (logical_topic_of st) slice (KafkaParameters.bootstrap_servers kp) forced in
    get_writable_storage sk = Ok st /\
    validate_passed_slice (WritableTableStorage.get_storage_set_key st) slice = Ok tt /\
    topic_rule (KafkaParameters.raw_topic kp)
               (Some (KafkaStreamLoader.get_default_topic_spec loader)) slice
      = Ok (Some raw) /\
    topic_rule (KafkaParameters.replacements_topic kp)
               (KafkaStreamLoader.get_replacement_topic_spec loader) slice
      = Ok repl /\
    topic_rule (KafkaParameters.commit_log_topic kp)
               (KafkaStreamLoader.get_commit_log_topic_spec loader) slice
      = Ok cl /\
    producer_refused prod = None /\
    w' = {| trace := trace w ++ [EvLogInfo (default (CfgInt 6) (broker !! "log_level"));
                                 EvProducer prod (next_handle w)];
            next_handle := S (next_handle w) |} /\
    self =
      {| ConsumerBuilder.storage := st;
         ConsumerBuilder.bootstrap_servers := KafkaParameters.bootstrap_servers kp;
         ConsumerBuilder.consumer_group := KafkaParameters.group_id kp;
         ConsumerBuilder.broker_config := broker;
         ConsumerBuilder.producer_broker_config := prod;
         ConsumerBuilder.raw_topic := raw;
         ConsumerBuilder.replacements_topic := repl;
         ConsumerBuilder.commit_log_topic := cl;
         ConsumerBuilder.stats_callback := cb;
         ConsumerBuilder.producer := next_handle w;
         ConsumerBuilder.metrics := metrics;
         ConsumerBuilder.max_batch_size := mbs;
         ConsumerBuilder.max_batch_time_ms := mbt;
         ConsumerBuilder.group_id := KafkaParameters.group_id kp;
         ConsumerBuilder.auto_offset_reset := KafkaParameters.auto_offset_reset kp;
         ConsumerBuilder.strict_offset_reset := KafkaParameters.strict_offset_reset kp;
         ConsumerBuilder.queued_max_messages_kbytes :=
           KafkaParameters.queued_max_messages_kbytes kp;
         ConsumerBuilder.queued_min_messages := KafkaParameters.queued_min_messages kp;
         ConsumerBuilder.processes := ProcessingParameters.processes pp;
         ConsumerBuilder.input_block_size := ProcessingParameters.input_block_size pp;
         ConsumerBuilder.output_block_size := ProcessingParameters.output_block_size pp;
         ConsumerBuilder.__profile_path := path;
         ConsumerBuilder.__commit_retry_policy :=
           match pol with
           | None => BasicRetryPolicy 3 1 ConsumerBuilder.commit_retry_test
           | Some policy => policy
           end;
         ConsumerBuilder.__validate_schema := default false vs |}.
Proof.
  unfold ConsumerBuilder.__init__. intros Hrun.
  apply bind_Ok_inv in Hrun as (st & w1 & Hst & Hrun).
  apply lift_Ok_inv in Hst as [Hst ->]. cbv zeta in Hrun.
  apply bind_Ok_inv in Hrun as ([] & w1 & Hval & Hrun).
  apply lift_Ok_inv in Hval as [Hval ->].
  apply bind_Ok_inv in Hrun as ([] & w1 & Hlog & Hrun).
  unfold logger_info, emit in Hlog. injection Hlog as <-.
  apply bind_Ok_inv in Hrun as (raw & w2 & Hraw & Hrun).
  apply bind_Ok_inv in Hrun as (repl & w3 & Hrepl & Hrun).
  apply bind_Ok_inv in Hrun as (cl & w4 & Hcl & Hrun).
  apply bind_Ok_inv in Hrun as (h & w5 & Hprod & Hrun).
  apply ret_Ok_inv in Hrun as [-> ->].
  apply raw_topic_inv in Hraw as [Hraw ->].
  apply optional_topic_inv in Hrepl as [Hrepl ->].
  apply optional_topic_inv in Hcl as [Hcl ->].
  apply Producer_inv in Hprod as (Hacc & -> & ->).
  exists st, raw, repl, cl. cbv zeta.
  repeat (split; [eassumption || reflexivity |]).
  cbn. rewrite <- app_assoc. split; reflexivity.
Qed.

End construction.

(** Construction stops at the first step that fails; these are the two
    failures the specification names. *)

Section failures.
Context `{Collaborators}.
Implicit Types (w : world).

Lemma init_unknown_storage sk kp pp mbs mbt metrics slice cb pol vs path w e :
  get_writable_storage sk = Raise e ->
  ConsumerBuilder.__init__ sk kp pp mbs mbt metrics slice cb pol vs path w
    = (w, Raise e).
Proof.
  intros Hst. unfold ConsumerBuilder.__init__.
  apply bind_Raise. unfold lift. rewrite Hst. reflexivity.
Qed.

Lemma init_validation_fails sk kp pp mbs mbt metrics slice cb pol vs path w st e :
  get_writable_storage sk = Ok st ->
  validate_passed_slice (WritableTableStorage.get_storage_set_key st) slice = Raise e ->
  ConsumerBuilder.__init__ sk kp pp mbs mbt metrics slice cb pol vs path w
    = (w, Raise e).
Proof.
  intros Hst Hval. unfold ConsumerBuilder.__init__.
  rewrite (bind_Ok _ _ w w st) by (unfold lift; rewrite Hst; reflexivity).
  cbv zeta. apply bind_Raise. unfold lift. rewrite Hval. reflexivity.
Qed.

Lemma validate_passed_slice_Raise storage_set slice e :
  validate_passed_slice storage_set slice = Raise e <->
  e = Py.ConfigurationError /\
  exists s, slice = Some s /\ slice_is_valid storage_set s = false.
Proof.
  unfold validate_passed_slice. destruct slice as [s|].
  - destruct (slice_is_valid storage_set s) eqn:Hvalid; split.
    + discriminate.
    + intros (_ & s' & [= <-] & Hs). congruence.
    + intros [= <-]. split; [reflexivity | exists s; split; [reflexivity | assumption]].
    + intros [-> _]. reflexivity.
  - split; [discriminate | intros (_ & s & Hs & _); discriminate Hs].
Qed.

End failures.

(** ** Milliseconds to seconds *)

Lemma float_1000_nonzero : Py.float_is_zero Py.float_1000 = false.
Proof. reflexivity. Qed.

(** Two seconds, a millisecond, and an int too large for a float. *)
Example two_thousand_ms :
  Py.int_truediv_float 2000 Py.float_1000
    = Ok (S754_finite false 4503599627370496 (-51)).
Proof. vm_compute. reflexivity. Qed.

Example one_ms :
  Py.int_truediv_float 1 Py.float_1000
    = Ok (S754_finite false 4611686018427388 (-62)).
Proof. vm_compute. reflexivity. Qed.

Example huge_ms :
  Py.int_truediv_float (2 ^ 1024) Py.float_1000 = Raise Py.OverflowError.
Proof. vm_compute. reflexivity. Qed.

Lemma float_eqb_eq (a b : spec_float) : Py.float_eqb a b = true -> a = b.
Proof.
  destruct a as [s1|s1| |s1 m1 e1], b as [s2|s2| |s2 m2 e2]; cbn;
    try discriminate; try reflexivity.
  - intros Hs. apply eqb_prop in Hs. congruence.
  - intros Hs. apply eqb_prop in Hs. congruence.
  - rewrite !andb_true_iff. intros [[Hs Hm] He].
    apply eqb_prop in Hs. apply Pos.eqb_eq in Hm. apply Z.eqb_eq in He.
    congruence.
Qed.

Lemma whole_seconds_from_spec (fuel : nat) :
  forall k j,
    Py.whole_seconds_from k fuel = true ->
    k <= j < k + Z.of_nat fuel -> Py.whole_seconds j = true.
Proof.
  induction fuel as [|fuel IH]; intros k j Hall Hj.
  - cbn in Hj. lia.
  - cbn [Py.whole_seconds_from] in Hall. apply andb_true_iff in Hall as [Hk Hrest].
    destruct (Z.eq_dec j k) as [->|Hne]; [exact Hk|].
    apply (IH (k + 1)); [exact Hrest | lia].
Qed.

(** Up to an hour, a whole number of seconds given in milliseconds
    divides into exactly that number. *)
Lemma whole_seconds_exact (seconds : Z) :
  0 <= seconds <= 3600 ->
  Py.int_truediv_float (1000 * seconds) Py.float_1000 = Py.float_of_int seconds.
Proof.
  intros Hrange.
  assert (Hall : Py.whole_seconds_from 0 (Z.to_nat 3601) = true)
    by (vm_compute; reflexivity).
  pose proof (whole_seconds_from_spec _ 0 seconds Hall) as Hs.
  rewrite Z2Nat.id in Hs by lia. specialize (Hs ltac:(lia)).
  unfold Py.whole_seconds in Hs.
  destruct (Py.int_truediv_float _ _) as [a|], (Py.float_of_int seconds) as [b|];
    try discriminate Hs.
  apply float_eqb_eq in Hs. congruence.
Qed.

Lemma int_truediv_float_1000 (n : Z) (t : spec_float) :
  Py.int_truediv_float n Py.float_1000 = Ok t <->
  exists f, Py.float_of_int n = Ok f /\ t = SFdiv Py.prec Py.emax f Py.float_1000.
Proof.
  unfold Py.int_truediv_float. rewrite float_1000_nonzero.
  destruct (Py.float_of_int n) as [f|e]; split.
  - intros [= <-]. exists f. split; reflexivity.
  - intros (f' & [= <-] & ->). reflexivity.
  - discriminate.
  - intros (f' & Hf & _). discriminate Hf.
Qed.

(** ** What a successful build has done *)

Section assembly.
Context `{Collaborators}.
Implicit Types (w : world) (self : ConsumerBuilder.t).

Lemma factory_inv self slice sf :
  ConsumerBuilder.__build_streaming_strategy_factory self slice = Ok sf ->
  exists f,
    Py.float_of_int (ConsumerBuilder.max_batch_time_ms self) = Ok f /\
    pipeline sf =
      let st := ConsumerBuilder.storage self in
      {| KafkaConsumerStrategyFactory.prefilter :=
           KafkaStreamLoader.get_pre_filter (stream_loader_of st);
         KafkaConsumerStrategyFactory.process_message :=
           process_message
             (KafkaStreamLoader.get_processor (stream_loader_of st))
             (ConsumerBuilder.consumer_group self) (logical_topic_of st)
             (ConsumerBuilder.__validate_schema self);
         KafkaConsumerStrategyFactory.collector :=
           {| BatchWriter.table_writer := WritableTableStorage.get_table_writer st;
              BatchWriter.metrics := ConsumerBuilder.metrics self;
              BatchWriter.replacements_producer :=
                match ConsumerBuilder.replacements_topic self with
                | Some _ => Some (ConsumerBuilder.producer self)
                | None => None
                end;
              BatchWriter.replacements_topic := ConsumerBuilder.replacements_topic self;
              BatchWriter.slice_id := slice;
              BatchWriter.commit_log_config :=
                match ConsumerBuilder.commit_log_topic self with
                | Some t =>
                    Some (CommitLogConfig.make (ConsumerBuilder.producer self) t
                                               (ConsumerBuilder.group_id self))
                | None => None
                end |};
         KafkaConsumerStrategyFactory.max_batch_size := ConsumerBuilder.max_batch_size self;
         KafkaConsumerStrategyFactory.max_batch_time :=
           SFdiv Py.prec Py.emax f Py.float_1000;
         KafkaConsumerStrategyFactory.processes := ConsumerBuilder.processes self;
         KafkaConsumerStrategyFactory.input_block_size :=
           ConsumerBuilder.input_block_size self;
         KafkaConsumerStrategyFactory.output_block_size :=
           ConsumerBuilder.output_block_size self;
         KafkaConsumerStrategyFactory.initialize_parallel_transform := setup_sentry;
         KafkaConsumerStrategyFactory.dead_letter_queue_policy_creator :=
           KafkaStreamLoader.get_dead_letter_queue_policy_creator (stream_loader_of st) |}.
Proof.
  unfold ConsumerBuilder.__build_streaming_strategy_factory. cbv zeta.
  destruct (Py.int_truediv_float _ _) as [t|e] eqn:Hdiv; [|discriminate].
  apply int_truediv_float_1000 in Hdiv as (f & Hf & ->).
  intros Hsf. exists f. split; [exact Hf|].
  destruct (ConsumerBuilder.__profile_path self) as [path|].
  - apply ProfilerWrapper_new_inv in Hsf as [_ ->]. reflexivity.
  - injection Hsf as <-. reflexivity.
Qed.

Lemma build_consumer_inv self sf slice w w' sp :
  ConsumerBuilder.__build_consumer self sf slice w = (w', Ok sp) ->
  exists collect,
    let config := consumer_configuration self slice collect in
    collects (stats_interval (ConsumerBuilder.group_id self)) = Ok collect /\
    consumer_refused config = None /\
    sp = StreamProcessor.make
           {| KafkaConsumer.client := next_handle w;
              KafkaConsumer.configuration := config;
              KafkaConsumer.commit_retry_policy :=
                ConsumerBuilder.__commit_retry_policy self |}
           (ConsumerBuilder.raw_topic self) sf IMMEDIATE /\
    w' = {| trace := trace w ++
                     [EvKafkaConsumer config
                        (ConsumerBuilder.__commit_retry_policy self) (next_handle w)];
            next_handle := S (next_handle w) |} /\
    subscription_refused
      {| KafkaConsumer.client := next_handle w;
         KafkaConsumer.configuration := config;
         KafkaConsumer.commit_retry_policy :=
           ConsumerBuilder.__commit_retry_policy self |}
      (ConsumerBuilder.raw_topic self) = None.
Proof.
  unfold ConsumerBuilder.__build_consumer. cbv zeta. intros Hrun.
  apply bind_Ok_inv in Hrun as (collect & w1 & Hcollect & Hrun).
  apply lift_Ok_inv in Hcollect as [Hcollect ->].
  apply bind_Ok_inv in Hrun as (c & w1 & Hc & Hrun).
  apply KafkaConsumer_new_inv in Hc as (Hacc & -> & ->).
  apply StreamProcessor_new_inv in Hrun as (Hsub & -> & ->).
  exists collect. cbv zeta. split; [exact Hcollect|].
  split; [exact Hacc|]. split; [reflexivity|]. split; [reflexivity | exact Hsub].
Qed.

Lemma collects_positive (interval : ConfigValue) (collect : bool) :
  collects interval = Ok collect -> (collect = true <-> positive interval).
Proof.
  unfold collects.
  destruct interval as [s|n|f|b| |g]; cbn.
  - destruct (negb (String.eqb s "")); [discriminate|].
    intros [= <-]. split; [discriminate | contradiction].
  - destruct (n =? 0) eqn:Hn; cbn; intros [= <-].
    + apply Z.eqb_eq in Hn. subst n. split; [discriminate | lia].
    + apply Z.ltb_lt.
  - destruct f as [sf| | |sf m e]; cbn; intros [= <-]; reflexivity.
  - destruct b; intros [= <-]; reflexivity.
  - intros [= <-]. split; [discriminate | contradiction].
  - discriminate.
Qed.

Lemma build_base_consumer_inv self slice w w' sp :
  ConsumerBuilder.build_base_consumer self slice w = (w', Ok sp) ->
  exists sf,
    ConsumerBuilder.__build_streaming_strategy_factory self slice = Ok sf /\
    ConsumerBuilder.__build_consumer self sf slice w = (w', Ok sp).
Proof.
  unfold ConsumerBuilder.build_base_consumer. intros Hrun.
  apply bind_Ok_inv in Hrun as (sf & w1 & Hsf & Hrun).
  apply lift_Ok_inv in Hsf as [Hsf ->]. exists sf. split; assumption.
Qed.

End assembly.

(** ** Construction and build succeed when the collaborators do *)

Section success.
Context `{Collaborators}.
Implicit Types (w : world) (self : ConsumerBuilder.t).

Lemma raw_topic_run (override : option string) (spec : KafkaTopicSpec.t)
    slice w (t : Topic.t) :
  topic_rule override (Some spec) slice = Ok (Some t) ->
  match override with
  | Some name => mret (Topic.make name)
  | None => name ← lift (get_physical_topic_name spec slice); mret (Topic.make name)
  end w = (w, Ok t).
Proof.
  unfold topic_rule. destruct override as [name|].
  - intros [= <-]. reflexivity.
  - destruct (get_physical_topic_name spec slice) as [name|e] eqn:Hname;
      intros [= <-].
    reflexivity.
Qed.

Lemma optional_topic_run (override : option string) (spec : option KafkaTopicSpec.t)
    slice w (t : option Topic.t) :
  topic_rule override spec slice = Ok t ->
  match override with
  | Some name => mret (Some (Topic.make name))
  | None =>
      match spec with
      | Some s =>
          name ← lift (get_physical_topic_name s slice);
          mret (Some (Topic.make name))
      | None => mret None
      end
  end w = (w, Ok t).
Proof.
  unfold topic_rule. destruct override as [name|]; [|destruct spec as [s|]].
  - intros [= <-]. reflexivity.
  - destruct (get_physical_topic_name s slice) as [name|e] eqn:Hname;
      intros [= <-].
    reflexivity.
  - intros [= <-]. reflexivity.
Qed.

Lemma Producer_run (config : BrokerConfig) w :
  producer_refused config = None ->
  Producer config w =
    ({| trace := trace w ++ [EvProducer config (next_handle w)];
        next_handle := S (next_handle w) |}, Ok (next_handle w)).
Proof. unfold Producer. intros ->. reflexivity. Qed.

Lemma KafkaConsumer_new_run (config : BrokerConfig) (policy : RetryPolicy) w :
  consumer_refused config = None ->
  exists w' c, KafkaConsumer_new config policy w = (w', Ok c).
Proof. unfold KafkaConsumer_new. intros ->. eexists _, _. reflexivity. Qed.

Lemma init_succeeds sk kp pp mbs mbt metrics slice cb pol vs path w st raw repl cl :
  let loader := stream_loader_of st in
  get_writable_storage sk = Ok st ->
  validate_passed_slice (WritableTableStorage.get_storage_set_key st) slice = Ok tt ->
  topic_rule (KafkaParameters.raw_topic kp)
             (Some (KafkaStreamLoader.get_default_topic_spec loader)) slice
    = Ok (Some raw) ->
  topic_rule (KafkaParameters.replacements_topic kp)
             (KafkaStreamLoader.get_replacement_topic_spec loader) slice
    = Ok repl ->
  topic_rule (KafkaParameters.commit_log_topic kp)
             (KafkaStreamLoader.get_commit_log_topic_spec loader) slice
    = Ok cl ->
  producer_refused
    (build_kafka_producer_configuration
       (logical_topic_of st) slice (KafkaParameters.bootstrap_servers kp)
       {[ "partitioner" := CfgStr "consistent";
          "message.max.bytes" := CfgInt 50000000 ]}) = None ->
  exists w' self,
    ConsumerBuilder.__init__ sk kp pp mbs mbt metrics slice cb pol vs path w
      = (w', Ok self).
Proof.
  intros loader Hst Hval Hraw Hrepl Hcl Hacc. unfold ConsumerBuilder.__init__.
  rewrite (bind_Ok _ _ w w st) by (unfold lift; rewrite Hst; reflexivity).
  cbv zeta.
  rewrite (bind_Ok _ _ w w tt) by (unfold lift; rewrite Hval; reflexivity).
  erewrite bind_Ok by reflexivity.
  erewrite bind_Ok by (apply raw_topic_run; exact Hraw).
  erewrite bind_Ok by (apply optional_topic_run; exact Hrepl).
  erewrite bind_Ok by (apply optional_topic_run; exact Hcl).
  erewrite bind_Ok by (apply Producer_run; exact Hacc).
  eexists _, _. reflexivity.
Qed.

Lemma KafkaConsumer_new_accepted (config : BrokerConfig) (policy : RetryPolicy) w :
  consumer_refused config = None ->
  KafkaConsumer_new config policy w
  = ({| trace := trace w ++ [EvKafkaConsumer config policy (next_handle w)];
        next_handle := S (next_handle w) |},
     Ok {| KafkaConsumer.client := next_handle w;
           KafkaConsumer.configuration := config;
           KafkaConsumer.commit_retry_policy := policy |}).
Proof. unfold KafkaConsumer_new. intros ->. reflexivity. Qed.

Lemma factory_run self slice (f : spec_float) :
  Py.float_of_int (ConsumerBuilder.max_batch_time_ms self) = Ok f ->
  (forall path, ConsumerBuilder.__profile_path self = Some path ->
                profiler_refused path = None) ->
  exists sf, ConsumerBuilder.__build_streaming_strategy_factory self slice = Ok sf.
Proof.
  intros Hf Hprofiler.
  unfold ConsumerBuilder.__build_streaming_strategy_factory. cbv zeta.
  unfold Py.int_truediv_float. rewrite Hf, float_1000_nonzero.
  destruct (ConsumerBuilder.__profile_path self) as [path|].
  - unfold ProfilerWrapper_new. rewrite (Hprofiler path eq_refl).
    eexists. reflexivity.
  - eexists. reflexivity.
Qed.

Lemma build_succeeds self slice w (f : spec_float) (collect : bool) :
  Py.float_of_int (ConsumerBuilder.max_batch_time_ms self) = Ok f ->
  collects (stats_interval (ConsumerBuilder.group_id self)) = Ok collect ->
  consumer_refused (consumer_configuration self slice collect) = None ->
  (forall path, ConsumerBuilder.__profile_path self = Some path ->
                profiler_refused path = None) ->
  subscription_refused
    {| KafkaConsumer.client := next_handle w;
       KafkaConsumer.configuration := consumer_configuration self slice collect;
       KafkaConsumer.commit_retry_policy :=
         ConsumerBuilder.__commit_retry_policy self |}
    (ConsumerBuilder.raw_topic self) = None ->
  exists w' sp, ConsumerBuilder.build_base_consumer self slice w = (w', Ok sp).
Proof.
  intros Hf Hcollect Hacc Hprofiler Hsub.
  unfold ConsumerBuilder.build_base_consumer.
  destruct (factory_run self slice f Hf Hprofiler) as [sf Hsf].
  rewrite (bind_Ok _ _ w w sf) by (unfold lift; rewrite Hsf; reflexivity).
  unfold ConsumerBuilder.__build_consumer. cbv zeta.
  rewrite (bind_Ok _ _ w w collect) by (unfold lift; f_equal; exact Hcollect).
  erewrite bind_Ok
    by exact (KafkaConsumer_new_accepted _
                (ConsumerBuilder.__commit_retry_policy self) w Hacc).
  cbv beta. unfold StreamProcessor_new. rewrite Hsub.
  eexists _, _. reflexivity.
Qed.

End success.

(** ** Dictionaries and the retry predicate *)

Section dictionaries.
Context `{Objects}.

Lemma dict_update_new (d new : BrokerConfig) (k : string) (v : ConfigValue) :
  new !! k = Some v -> dict_update d new !! k = Some v.
Proof. unfold dict_update. apply lookup_union_Some_l. Qed.

Lemma dict_update_old (d new : BrokerConfig) (k : string) :
  new !! k = None -> dict_update d new !! k = d !! k.
Proof. unfold dict_update. apply lookup_union_r. Qed.

Lemma lookup_pair_fst (k1 k2 : string) (v1 v2 : ConfigValue) :
  ({[ k1 := v1; k2 := v2 ]} : BrokerConfig) !! k1 = Some v1.
Proof. apply lookup_insert_eq. Qed.

Lemma lookup_pair_snd (k1 k2 : string) (v1 v2 : ConfigValue) :
  k1 <> k2 -> ({[ k1 := v1; k2 := v2 ]} : BrokerConfig) !! k2 = Some v2.
Proof. intros Hne. rewrite lookup_insert_ne by exact Hne. apply lookup_singleton_eq. Qed.

Lemma lookup_pair_other (k1 k2 k : string) (v1 v2 : ConfigValue) :
  k <> k1 -> k <> k2 -> ({[ k1 := v1; k2 := v2 ]} : BrokerConfig) !! k = None.
Proof.
  intros H1 H2. rewrite lookup_insert_ne by congruence.
  apply lookup_singleton_ne. congruence.
Qed.

End dictionaries.

Section retry_predicate.

Lemma in_tuple_int (c x y z : Z) :
  Py.in_tuple (Py.AnInt c) [x; y; z]
  = Ok ((c =? x) || (c =? y) || (c =? z)).
Proof.
  cbn. destruct (c =? x); [reflexivity|].
  destruct (c =? y); [reflexivity|]. destruct (c =? z); reflexivity.
Qed.

Lemma transient_code_eqb (c : Z) :
  (c =? KafkaError.REQUEST_TIMED_OUT)
  || (c =? KafkaError.NOT_COORDINATOR)
  || (c =? KafkaError._WAIT_COORD) = true <-> transient_code c.
Proof.
  unfold transient_code. rewrite !orb_true_iff, !Z.eqb_eq. tauto.
Qed.

Lemma commit_retry_test_code_true (c : Z) (rest : list Py.value) :
  ConsumerBuilder.commit_retry_test (Py.KafkaException (Py.KafkaError c :: rest))
    = Ok true <-> transient_code c.
Proof.
  cbn [ConsumerBuilder.commit_retry_test Py.item0 Py.code].
  rewrite in_tuple_int, <- transient_code_eqb.
  split; [intros [= ->]; reflexivity | intros ->; reflexivity].
Qed.

Lemma commit_retry_test_code_false (c : Z) (rest : list Py.value) :
  ConsumerBuilder.commit_retry_test (Py.KafkaException (Py.KafkaError c :: rest))
    = Ok false <-> ~ transient_code c.
Proof.
  cbn [ConsumerBuilder.commit_retry_test Py.item0 Py.code].
  rewrite in_tuple_int, <- transient_code_eqb.
  split.
  - intros [= ->]. discriminate.
  - intros Hc. f_equal. apply not_true_is_false. exact Hc.
Qed.

Lemma commit_retry_test_true (e : Py.exception) :
  ConsumerBuilder.commit_retry_test e = Ok true <-> transient e.
Proof.
  unfold transient. split.
  - destruct e as [[|v rest]|cls args]; try discriminate. cbn.
    destruct (Py.code v) as [r|x] eqn:Hcode; [|discriminate].
    intros Hin. exists v, rest, r. repeat split; assumption.
  - intros (v & rest & r & -> & Hcode & Hin). cbn. rewrite Hcode. exact Hin.
Qed.

End retry_predicate.

(** ** The claims of the specification *)

Section claims.
Context `{Collaborators}.
Implicit Types (w : world) (self : ConsumerBuilder.t) (sp : StreamProcessor.t).

(** C1. Each of the raw, replacement and commit-log topics of a builder
    follows the topic rule on its own: the override when one is given,
    else the physical name of the topic spec the storage declares, under
    the slice id given to the constructor, else no topic.  The default
    topic spec always exists, so the raw topic is always present. *)
Theorem topics_resolved sk kp pp mbs mbt metrics slice cb pol vs path w w' self :
  ConsumerBuilder.__init__ sk kp pp mbs mbt metrics slice cb pol vs path w
    = (w', Ok self) ->
  let loader := stream_loader_of (ConsumerBuilder.storage self) in
  get_writable_storage sk = Ok (ConsumerBuilder.storage self) /\
  topic_rule (KafkaParameters.raw_topic kp)
             (Some (KafkaStreamLoader.get_default_topic_spec loader)) slice
    = Ok (Some (ConsumerBuilder.raw_topic self)) /\
  topic_rule (KafkaParameters.replacements_topic kp)
             (KafkaStreamLoader.get_replacement_topic_spec loader) slice
    = Ok (ConsumerBuilder.replacements_topic self) /\
  topic_rule (KafkaParameters.commit_log_topic kp)
             (KafkaStreamLoader.get_commit_log_topic_spec loader) slice
    = Ok (ConsumerBuilder.commit_log_topic self).
Proof.
  intros Hinit.
  destruct (init_inv _ _ _ _ _ _ _ _ _ _ _ _ _ _ Hinit)
    as (st & raw & repl & cl & Hst & _ & Hraw & Hrepl & Hcl & _ & _ & ->).
  cbn. auto.
Qed.

(** C2, as amended. Without a retry policy the builder installs
    [BasicRetryPolicy] with 3 attempts and a delay of 1, whose predicate
    answers true on a broker exception carrying an error object exactly
    when its code is one of the three transient codes, and false exactly
    when it is another code; answers false on every exception that is not
    a broker exception; and answers true on no cause but a broker
    exception whose first argument reports one of the three codes.  A
    policy that is supplied is used unchanged. *)
Theorem commit_retry_policy_selected
    sk kp pp mbs mbt metrics slice cb pol vs path w w' self :
  ConsumerBuilder.__init__ sk kp pp mbs mbt metrics slice cb pol vs path w
    = (w', Ok self) ->
  match pol with
  | Some policy => ConsumerBuilder.__commit_retry_policy self = policy
  | None =>
      exists test,
        ConsumerBuilder.__commit_retry_policy self = BasicRetryPolicy 3 1 test /\
        (forall c rest,
           test (Py.KafkaException (Py.KafkaError c :: rest)) = Ok true
           <-> transient_code c) /\
        (forall c rest,
           test (Py.KafkaException (Py.KafkaError c :: rest)) = Ok false
           <-> ~ transient_code c) /\
        (forall cls args, test (Py.OtherException cls args) = Ok false) /\
        (forall e, test e = Ok true <-> transient e)
  end.
Proof.
  intros Hinit.
  destruct (init_inv _ _ _ _ _ _ _ _ _ _ _ _ _ _ Hinit)
    as (st & raw & repl & cl & _ & _ & _ & _ & _ & _ & _ & ->).
  destruct pol as [policy|]; [reflexivity|].
  exists ConsumerBuilder.commit_retry_test. cbn. split; [reflexivity|].
  split; [exact commit_retry_test_code_true|].
  split; [exact commit_retry_test_code_false|].
  split; [reflexivity | exact commit_retry_test_true].
Qed.

(** C3. In the pipeline a builder assembles, the collector has a
    commit-log configuration (the builder's producer, the commit-log
    topic, the group id) exactly when the builder has a commit-log topic,
    and a replacements producer exactly when the builder has a
    replacements topic; the producer and its topic are bound together or
    not at all. *)
Theorem emission_bindings self slice w w' sp :
  ConsumerBuilder.build_base_consumer self slice w = (w', Ok sp) ->
  let bw := KafkaConsumerStrategyFactory.collector
              (pipeline (StreamProcessor.processor_factory sp)) in
  match ConsumerBuilder.commit_log_topic self with
  | Some t =>
      BatchWriter.commit_log_config bw =
        Some (CommitLogConfig.make (ConsumerBuilder.producer self) t
                                   (ConsumerBuilder.group_id self))
  | None => BatchWriter.commit_log_config bw = None
  end /\
  match ConsumerBuilder.replacements_topic self with
  | Some t =>
      BatchWriter.replacements_producer bw = Some (ConsumerBuilder.producer self) /\
      BatchWriter.replacements_topic bw = Some t
  | None =>
      BatchWriter.replacements_producer bw = None /\
      BatchWriter.replacements_topic bw = None
  end /\
  (is_Some (BatchWriter.commit_log_config bw) <->
   is_Some (ConsumerBuilder.commit_log_topic self)) /\
  (is_Some (BatchWriter.replacements_producer bw) <->
   is_Some (ConsumerBuilder.replacements_topic self)) /\
  (is_Some (BatchWriter.replacements_producer bw) <->
   is_Some (BatchWriter.replacements_topic bw)).
Proof.
  intros Hrun.
  apply build_base_consumer_inv in Hrun as (sf & Hsf & Hrun).
  apply build_consumer_inv in Hrun as (collect & _ & _ & -> & _).
  apply factory_inv in Hsf as (f & _ & Hsf).
  cbn. rewrite Hsf. cbn.
  destruct (ConsumerBuilder.commit_log_topic self) as [cl|],
           (ConsumerBuilder.replacements_topic self) as [repl|];
    repeat split; auto; intros Hs; try exact Hs; try (eexists; reflexivity);
    destruct Hs as [? [=]].
Qed.

(** C4. A slice id that is not valid for the storage set of the storage
    makes the constructor raise [ConfigurationError] and leaves the world
    as it was: no line logged, no client created, whatever topic
    resolution and client construction would have done. *)
Theorem invalid_slice_rejected sk kp pp mbs mbt metrics s cb pol vs path w st :
  get_writable_storage sk = Ok st ->
  slice_is_valid (WritableTableStorage.get_storage_set_key st) s = false ->
  ConsumerBuilder.__init__ sk kp pp mbs mbt metrics (Some s) cb pol vs path w
    = (w, Raise Py.ConfigurationError).
Proof.
  intros Hst Hinvalid. apply init_validation_fails with (st := st); [exact Hst|].
  apply validate_passed_slice_Raise. split; [reflexivity|].
  exists s. split; [reflexivity | exact Hinvalid].
Qed.

(** C5. The producer configuration of a builder holds the consistent
    partitioner and a message ceiling of 50000000 bytes, whatever the
    configuration held for these two keys before the overrides, and the
    producer is created from that configuration. *)
Theorem producer_configuration_forced
    sk kp pp mbs mbt metrics slice cb pol vs path w w' self :
  ConsumerBuilder.__init__ sk kp pp mbs mbt metrics slice cb pol vs path w
    = (w', Ok self) ->
  ConsumerBuilder.producer_broker_config self !! "partitioner"
    = Some (CfgStr "consistent") /\
  ConsumerBuilder.producer_broker_config self !! "message.max.bytes"
    = Some (CfgInt 50000000) /\
  producers_created (trace w') =
    (producers_created (trace w) ++
     [(ConsumerBuilder.producer_broker_config self, ConsumerBuilder.producer self)])%list.
Proof.
  intros Hinit.
  destruct (init_inv _ _ _ _ _ _ _ _ _ _ _ _ _ _ Hinit)
    as (st & raw & repl & cl & _ & _ & _ & _ & _ & _ & -> & ->).
  cbn [ConsumerBuilder.producer_broker_config ConsumerBuilder.producer trace].
  unfold build_kafka_producer_configuration. split; [|split].
  - apply dict_update_new, lookup_pair_fst.
  - apply dict_update_new, lookup_pair_snd. discriminate.
  - unfold producers_created. rewrite omap_app. reflexivity.
Qed.

(** C6. The strategy factory of the assembled pipeline has the builder's
    [max_batch_size] as its item bound, and as its time bound the float
    that Python's [max_batch_time_ms / 1000.0] yields. *)
Theorem batching_thresholds
    sk kp pp mbs mbt metrics slice cb pol vs path w w1 self slice' w2 sp :
  ConsumerBuilder.__init__ sk kp pp mbs mbt metrics slice cb pol vs path w
    = (w1, Ok self) ->
  ConsumerBuilder.build_base_consumer self slice' w1 = (w2, Ok sp) ->
  let factory := pipeline (StreamProcessor.processor_factory sp) in
  KafkaConsumerStrategyFactory.max_batch_size factory = mbs /\
  Py.int_truediv_float mbt Py.float_1000
    = Ok (KafkaConsumerStrategyFactory.max_batch_time factory).
Proof.
  intros Hinit Hrun.
  destruct (init_inv _ _ _ _ _ _ _ _ _ _ _ _ _ _ Hinit)
    as (st & raw & repl & cl & _ & _ & _ & _ & _ & _ & _ & Hself).
  apply build_base_consumer_inv in Hrun as (sf & Hsf & Hrun).
  apply build_consumer_inv in Hrun as (collect & _ & _ & -> & _).
  apply factory_inv in Hsf as (f & Hf & Hsf).
  cbn. rewrite Hsf. subst self. cbn in *. split; [reflexivity|].
  apply int_truediv_float_1000. exists f. split; [exact Hf | reflexivity].
Qed.

End claims.

Section claims_of_the_build.
Context `{Collaborators}.
Implicit Types (w : world) (self : ConsumerBuilder.t) (sp : StreamProcessor.t).

(** C7. The consumer configuration is the one
    [build_kafka_consumer_configuration] returns, to which the entries
    [statistics.interval.ms] and [stats_cb] are added exactly when the
    setting [stats_collection_freq_ms_<group id>], read with the setting
    [stats_collection_freq_ms] (itself read with default 0) as its
    default, is strictly positive. *)
Theorem statistics_entries
    sk kp pp mbs mbt metrics slice cb pol vs path w w1 self slice' w2 sp :
  ConsumerBuilder.__init__ sk kp pp mbs mbt metrics slice cb pol vs path w
    = (w1, Ok self) ->
  ConsumerBuilder.build_base_consumer self slice' w1 = (w2, Ok sp) ->
  let interval :=
    get_config ("stats_collection_freq_ms_" +:+ KafkaParameters.group_id kp)
               (get_config "stats_collection_freq_ms" (CfgInt 0)) in
  let base :=
    build_kafka_consumer_configuration
      (logical_topic_of (ConsumerBuilder.storage self))
      (KafkaParameters.bootstrap_servers kp) (KafkaParameters.group_id kp) slice'
      (KafkaParameters.auto_offset_reset kp) (KafkaParameters.strict_offset_reset kp)
      (KafkaParameters.queued_max_messages_kbytes kp)
      (KafkaParameters.queued_min_messages kp) in
  let config := KafkaConsumer.configuration (StreamProcessor.consumer sp) in
  (positive interval ->
   config !! "statistics.interval.ms" = Some interval /\
   config !! "stats_cb" = Some (of_callback cb) /\
   forall k, k <> "statistics.interval.ms" -> k <> "stats_cb" ->
             config !! k = base !! k) /\
  (~ positive interval -> config = base) /\
  (base !! "statistics.interval.ms" = None -> base !! "stats_cb" = None ->
   (is_Some (config !! "statistics.interval.ms") <-> positive interval) /\
   (is_Some (config !! "stats_cb") <-> positive interval)).
Proof.
  intros Hinit Hrun.
  destruct (init_inv _ _ _ _ _ _ _ _ _ _ _ _ _ _ Hinit)
    as (st & raw & repl & cl & _ & _ & _ & _ & _ & _ & _ & Hself).
  apply build_base_consumer_inv in Hrun as (sf & _ & Hrun).
  apply build_consumer_inv in Hrun as (collect & Hcollect & _ & -> & _).
  apply collects_positive in Hcollect.
  subst self. unfold consumer_configuration, consumer_base, stats_interval in *.
  cbn in *.
  set (interval := get_config _ _) in *.
  set (base := build_kafka_consumer_configuration _ _ _ _ _ _ _ _).
  destruct collect.
  - assert (Hpos : positive interval) by (apply Hcollect; reflexivity).
    assert (Hms : dict_update base
                    {[ "statistics.interval.ms" := interval;
                       "stats_cb" := of_callback cb ]}
                  !! "statistics.interval.ms" = Some interval)
      by apply dict_update_new, lookup_pair_fst.
    assert (Hcb : dict_update base
                    {[ "statistics.interval.ms" := interval;
                       "stats_cb" := of_callback cb ]}
                  !! "stats_cb" = Some (of_callback cb))
      by (apply dict_update_new, lookup_pair_snd; discriminate).
    split; [|split].
    + intros _. split; [exact Hms|]. split; [exact Hcb|].
      intros k Hk1 Hk2. apply dict_update_old, lookup_pair_other; assumption.
    + intros Hneg. contradiction.
    + intros _ _. rewrite Hms, Hcb. split; split; intros _; auto; eexists; reflexivity.
  - assert (Hneg : ~ positive interval).
    { intros Hpos. apply Hcollect in Hpos. discriminate Hpos. }
    split; [|split].
    + intros Hpos. contradiction.
    + intros _. reflexivity.
    + intros -> ->. split; split; intros Hs;
        try contradiction; destruct Hs as [? [=]].
Qed.

(** C8. The transform of the assembled pipeline is [process_message]
    applied to four values fixed when the pipeline is built, the same for
    every message: the processor of the stream loader, the consumer group
    id, the logical name of the default topic, and the schema validation
    flag, which is off when the constructor is not given one. *)
Theorem transform_bound
    sk kp pp mbs mbt metrics slice cb pol vs path w w1 self slice' w2 sp :
  ConsumerBuilder.__init__ sk kp pp mbs mbt metrics slice cb pol vs path w
    = (w1, Ok self) ->
  ConsumerBuilder.build_base_consumer self slice' w1 = (w2, Ok sp) ->
  forall m : Message,
    KafkaConsumerStrategyFactory.process_message
      (pipeline (StreamProcessor.processor_factory sp)) m
    = process_message
        (KafkaStreamLoader.get_processor
           (stream_loader_of (ConsumerBuilder.storage self)))
        (KafkaParameters.group_id kp)
        (logical_topic_of (ConsumerBuilder.storage self))
        (match vs with Some flag => flag | None => false end)
        m.
Proof.
  intros Hinit Hrun m.
  destruct (init_inv _ _ _ _ _ _ _ _ _ _ _ _ _ _ Hinit)
    as (st & raw & repl & cl & _ & _ & _ & _ & _ & _ & _ & Hself).
  apply build_base_consumer_inv in Hrun as (sf & Hsf & Hrun).
  apply build_consumer_inv in Hrun as (collect & _ & _ & -> & _).
  apply factory_inv in Hsf as (f & _ & Hsf).
  cbn. rewrite Hsf. subst self. cbn. destruct vs; reflexivity.
Qed.

(** C9. The topics of the pipeline are resolved under the slice id given
    to the constructor; the consumer configuration and the collector take
    the slice id given to [build_base_consumer], [None] when left out.
    Nothing relates the two. *)
Theorem slices_independent
    sk kp pp mbs mbt metrics slice cb pol vs path w w1 self slice' w2 sp :
  ConsumerBuilder.__init__ sk kp pp mbs mbt metrics slice cb pol vs path w
    = (w1, Ok self) ->
  ConsumerBuilder.build_base_consumer self slice' w1 = (w2, Ok sp) ->
  let loader := stream_loader_of (ConsumerBuilder.storage self) in
  let bw := KafkaConsumerStrategyFactory.collector
              (pipeline (StreamProcessor.processor_factory sp)) in
  let base :=
    build_kafka_consumer_configuration
      (logical_topic_of (ConsumerBuilder.storage self))
      (KafkaParameters.bootstrap_servers kp) (KafkaParameters.group_id kp) slice'
      (KafkaParameters.auto_offset_reset kp) (KafkaParameters.strict_offset_reset kp)
      (KafkaParameters.queued_max_messages_kbytes kp)
      (KafkaParameters.queued_min_messages kp) in
  let config := KafkaConsumer.configuration (StreamProcessor.consumer sp) in
  topic_rule (KafkaParameters.raw_topic kp)
             (Some (KafkaStreamLoader.get_default_topic_spec loader)) slice
    = Ok (Some (StreamProcessor.topic sp)) /\
  topic_rule (KafkaParameters.replacements_topic kp)
             (KafkaStreamLoader.get_replacement_topic_spec loader) slice
    = Ok (BatchWriter.replacements_topic bw) /\
  topic_rule (KafkaParameters.commit_log_topic kp)
             (KafkaStreamLoader.get_commit_log_topic_spec loader) slice
    = Ok (CommitLogConfig.topic <$> BatchWriter.commit_log_config bw) /\
  BatchWriter.slice_id bw = slice' /\
  (config = base \/
   exists interval,
     config = dict_update base
                {[ "statistics.interval.ms" := interval;
                   "stats_cb" := of_callback cb ]}).
Proof.
  intros Hinit Hrun.
  destruct (init_inv _ _ _ _ _ _ _ _ _ _ _ _ _ _ Hinit)
    as (st & raw & repl & cl & _ & _ & Hraw & Hrepl & Hcl & _ & _ & Hself).
  apply build_base_consumer_inv in Hrun as (sf & Hsf & Hrun).
  apply build_consumer_inv in Hrun as (collect & _ & _ & -> & _).
  apply factory_inv in Hsf as (f & _ & Hsf).
  cbn. rewrite Hsf. subst self. cbn.
  repeat split; try assumption.
  - rewrite Hcl. destruct cl; reflexivity.
  - unfold consumer_configuration.
    destruct collect; [right; eexists; reflexivity | left; reflexivity].
Qed.

(** C10. A successful construction has created exactly one producer, from
    the producer configuration, whether or not a replacements or a
    commit-log topic was resolved.  Building the consumer creates no
    other: the replacements binding and the commit-log binding of the
    collector both hold that producer, and with neither topic the
    collector holds no producer at all. *)
Theorem producer_allocated_once
    sk kp pp mbs mbt metrics slice cb pol vs path w w1 self :
  ConsumerBuilder.__init__ sk kp pp mbs mbt metrics slice cb pol vs path w
    = (w1, Ok self) ->
  producers_created (trace w1) =
    (producers_created (trace w) ++
     [(ConsumerBuilder.producer_broker_config self, ConsumerBuilder.producer self)])%list /\
  ConsumerBuilder.producer self = next_handle w /\
  forall slice' w2 sp,
    ConsumerBuilder.build_base_consumer self slice' w1 = (w2, Ok sp) ->
    let bw := KafkaConsumerStrategyFactory.collector
                (pipeline (StreamProcessor.processor_factory sp)) in
    producers_created (trace w2) = producers_created (trace w1) /\
    (forall h, BatchWriter.replacements_producer bw = Some h ->
               h = ConsumerBuilder.producer self) /\
    (forall c, BatchWriter.commit_log_config bw = Some c ->
               CommitLogConfig.producer c = ConsumerBuilder.producer self) /\
    (ConsumerBuilder.replacements_topic self = None ->
     ConsumerBuilder.commit_log_topic self = None ->
     BatchWriter.replacements_producer bw = None /\
     BatchWriter.commit_log_config bw = None).
Proof.
  intros Hinit.
  destruct (init_inv _ _ _ _ _ _ _ _ _ _ _ _ _ _ Hinit)
    as (st & raw & repl & cl & _ & _ & _ & _ & _ & _ & Hw1 & Hself).
  split; [|split].
  - subst w1 self. cbn. unfold producers_created. rewrite omap_app. reflexivity.
  - subst self. reflexivity.
  - intros slice' w2 sp Hrun.
    apply build_base_consumer_inv in Hrun as (sf & Hsf & Hrun).
    apply build_consumer_inv in Hrun as (collect & _ & _ & -> & -> & _).
    apply factory_inv in Hsf as (f & _ & Hsf).
    cbn. rewrite Hsf. cbn. split; [|split; [|split]].
    + unfold producers_created. rewrite omap_app. cbn. apply app_nil_r.
    + destruct (ConsumerBuilder.replacements_topic self); intros h [= <-]. reflexivity.
    + destruct (ConsumerBuilder.commit_log_topic self); intros c [= <-]. reflexivity.
    + intros -> ->. split; reflexivity.
Qed.

End claims_of_the_build.

(** ** The claims on the example installation *)

Section on_the_example.
Import Example.
#[local] Existing Instance objects.
#[local] Existing Instance collaborators.

(** Runs the constructor of the example. *)
Ltac construct Hinit w1 self :=
  unfold init;
  match goal with
  | |- context [ConsumerBuilder.__init__ ?sk ?kp ?pp ?mbs ?mbt ?m ?sl ?cb ?pol ?vs ?path ?w] =>
      edestruct (init_succeeds (H0 := collaborators) sk kp pp mbs mbt m sl cb pol vs path w)
        as (w1 & self & Hinit); [reflexivity .. |]
  end.

(** Runs [build_base_consumer] on the builder of [Hinit]. *)
Ltac assemble Hinit Hrun slice w2 sp :=
  match type of Hinit with
  | _ = (?w1, Ok ?self) =>
      edestruct (build_succeeds (H0 := collaborators) self slice w1)
        as (w2 & sp & Hrun);
      [ destruct (init_inv _ _ _ _ _ _ _ _ _ _ _ _ _ _ Hinit)
          as (? & ? & ? & ? & _ & _ & _ & _ & _ & _ & _ & ->);
        vm_compute; reflexivity
      | destruct (init_inv _ _ _ _ _ _ _ _ _ _ _ _ _ _ Hinit)
          as (? & ? & ? & ? & _ & _ & _ & _ & _ & _ & _ & ->);
        vm_compute; reflexivity
      | reflexivity
      | destruct (init_inv _ _ _ _ _ _ _ _ _ _ _ _ _ _ Hinit)
          as (? & ? & ? & ? & _ & _ & _ & _ & _ & _ & _ & ->);
        cbn; intros ? [= <-]; reflexivity
      | reflexivity
      | ]
  end.

Lemma topics_resolved_witness :
  exists w1 self,
    init "errors" (params "ingest-group" None None (Some "commits-override"))
         (Some 1) None None start = (w1, Ok self) /\
    ConsumerBuilder.raw_topic self = Topic.make "events-1" /\
    ConsumerBuilder.replacements_topic self = Some (Topic.make "event-replacements-1") /\
    ConsumerBuilder.commit_log_topic self = Some (Topic.make "commits-override").
Proof.
  construct Hinit w1 self. exists w1, self. split; [exact Hinit|].
  pose proof (topics_resolved _ _ _ _ _ _ _ _ _ _ _ _ _ _ Hinit)
    as (Hst & Hraw & Hrepl & Hcl).
  cbn in Hst. injection Hst as Hst. rewrite <- Hst in Hraw, Hrepl.
  cbn in Hraw, Hrepl, Hcl.
  injection Hraw as <-. injection Hrepl as <-. injection Hcl as <-.
  repeat split.
Defined.

Lemma commit_retry_policy_selected_witness :
  exists w1 self test,
    init "errors" (params "ingest-group" None None None) None None None start
      = (w1, Ok self) /\
    ConsumerBuilder.__commit_retry_policy self = BasicRetryPolicy 3 1 test /\
    test (Py.KafkaException [Py.KafkaError KafkaError.NOT_COORDINATOR]) = Ok true /\
    test (Py.KafkaException [Py.KafkaError 3]) = Ok false /\
    test (Py.OtherException "ValueError" []) = Ok false.
Proof.
  construct Hinit w1 self.
  destruct (commit_retry_policy_selected _ _ _ _ _ _ _ _ _ _ _ _ _ _ Hinit)
    as (test & Hpol & Htrue & Hfalse & Hother & _).
  exists w1, self, test. split; [exact Hinit|]. split; [exact Hpol|].
  split; [|split].
  - apply Htrue. right. left. reflexivity.
  - apply Hfalse. intros [Hc|[Hc|Hc]]; discriminate Hc.
  - apply Hother.
Defined.

(** C2 as the specification states it fails: a broker exception without
    arguments is not one of the transient causes, yet the predicate of
    the default policy does not answer false on it; it raises. *)
Lemma malformed_cause_raises :
  exists w1 self test,
    init "errors" (params "ingest-group" None None None) None None None start
      = (w1, Ok self) /\
    ConsumerBuilder.__commit_retry_policy self = BasicRetryPolicy 3 1 test /\
    ~ transient (Py.KafkaException []) /\
    test (Py.KafkaException []) = Raise Py.IndexError /\
    test (Py.KafkaException []) <> Ok false.
Proof.
  eexists _, _, _. split; [vm_compute; reflexivity|].
  split; [reflexivity|]. split; [|split].
  - intros (v & rest & r & Hc & _). discriminate Hc.
  - reflexivity.
  - discriminate.
Qed.

Lemma emission_bindings_witness :
  exists w1 self w2 sp,
    init "errors" (params "ingest-group" None None None) (Some 1) None None start
      = (w1, Ok self) /\
    build self (Some 1) w1 = (w2, Ok sp) /\
    let bw := KafkaConsumerStrategyFactory.collector
                (pipeline (StreamProcessor.processor_factory sp)) in
    (is_Some (BatchWriter.commit_log_config bw) <->
     is_Some (ConsumerBuilder.commit_log_topic self)) /\
    (is_Some (BatchWriter.replacements_producer bw) <->
     is_Some (ConsumerBuilder.replacements_topic self)) /\
    (is_Some (BatchWriter.replacements_producer bw) <->
     is_Some (BatchWriter.replacements_topic bw)).
Proof.
  construct Hinit w1 self. unfold build. assemble Hinit Hrun (Some 1) w2 sp.
  exists w1, self, w2, sp. split; [exact Hinit|]. split; [exact Hrun|].
  apply (emission_bindings _ _ _ _ _ Hrun).
Defined.

Lemma invalid_slice_rejected_witness :
  get_physical_topic_name {| KafkaTopicSpec.topic := "events" |} (Some 7)
    = Raise (Py.Exception "KeyError") /\
  init "errors" (params "ingest-group" None None None) (Some 7) None None start
    = (start, Raise Py.ConfigurationError).
Proof.
  split; [reflexivity|].
  unfold init. apply invalid_slice_rejected with (st := errors); reflexivity.
Defined.

Lemma producer_configuration_forced_witness :
  exists w1 self,
    init "errors" (params "ingest-group" None None None) None None None start
      = (w1, Ok self) /\
    producer_defaults "events" None None !! "partitioner" = Some (CfgStr "random") /\
    ConsumerBuilder.producer_broker_config self !! "partitioner"
      = Some (CfgStr "consistent") /\
    ConsumerBuilder.producer_broker_config self !! "message.max.bytes"
      = Some (CfgInt 50000000).
Proof.
  construct Hinit w1 self. exists w1, self. split; [exact Hinit|].
  split; [reflexivity|].
  destruct (producer_configuration_forced _ _ _ _ _ _ _ _ _ _ _ _ _ _ Hinit)
    as (Hpartitioner & Hbytes & _).
  split; [exact Hpartitioner | exact Hbytes].
Defined.

Lemma batching_thresholds_witness :
  exists w1 self w2 sp,
    init "errors" (params "ingest-group" None None None) None None None start
      = (w1, Ok self) /\
    build self None w1 = (w2, Ok sp) /\
    let factory := pipeline (StreamProcessor.processor_factory sp) in
    KafkaConsumerStrategyFactory.max_batch_size factory = 50000 /\
    KafkaConsumerStrategyFactory.max_batch_time factory
      = S754_finite false 4503599627370496 (-51).
Proof.
  construct Hinit w1 self. unfold build. assemble Hinit Hrun (@None Z) w2 sp.
  exists w1, self, w2, sp. split; [exact Hinit|]. split; [exact Hrun|].
  destruct (batching_thresholds _ _ _ _ _ _ _ _ _ _ _ _ _ _ _ _ _ Hinit Hrun)
    as [Hsize Htime].
  cbv zeta. split; [exact Hsize|].
  rewrite two_thousand_ms in Htime. injection Htime as <-. reflexivity.
Defined.

Lemma statistics_entries_witness :
  exists w1 self w2 sp,
    init "errors" (params "ingest-group" None None None) None None None start
      = (w1, Ok self) /\
    build self None w1 = (w2, Ok sp) /\
    let config := KafkaConsumer.configuration (StreamProcessor.consumer sp) in
    config !! "statistics.interval.ms" = Some (CfgInt 5000) /\
    config !! "stats_cb" = Some CfgNone.
Proof.
  construct Hinit w1 self. unfold build. assemble Hinit Hrun (@None Z) w2 sp.
  exists w1, self, w2, sp. split; [exact Hinit|]. split; [exact Hrun|].
  destruct (statistics_entries _ _ _ _ _ _ _ _ _ _ _ _ _ _ _ _ _ Hinit Hrun)
    as [Hpos _].
  destruct Hpos as (Hms & Hcb & _); [reflexivity|].
  split; [exact Hms | exact Hcb].
Defined.

Lemma transform_bound_witness :
  exists w1 self w2 sp,
    init "errors" (params "ingest-group" None None None) None None None start
      = (w1, Ok self) /\
    build self None w1 = (w2, Ok sp) /\
    KafkaConsumerStrategyFactory.process_message
      (pipeline (StreamProcessor.processor_factory sp)) "payload"
    = ("ErrorsProcessor", "ingest-group", "events", false, "payload").
Proof.
  construct Hinit w1 self. unfold build. assemble Hinit Hrun (@None Z) w2 sp.
  exists w1, self, w2, sp. split; [exact Hinit|]. split; [exact Hrun|].
  rewrite (transform_bound _ _ _ _ _ _ _ _ _ _ _ _ _ _ _ _ _ Hinit Hrun).
  destruct (init_inv _ _ _ _ _ _ _ _ _ _ _ _ _ _ Hinit)
    as (st & ? & ? & ? & Hst & _ & _ & _ & _ & _ & _ & ->).
  cbn in Hst. injection Hst as <-. reflexivity.
Defined.

Lemma slices_independent_witness :
  exists w1 self w2 sp,
    init "errors" (params "ingest-group" None None None) (Some 1) None None start
      = (w1, Ok self) /\
    build self None w1 = (w2, Ok sp) /\
    StreamProcessor.topic sp = Topic.make "events-1" /\
    BatchWriter.slice_id
      (KafkaConsumerStrategyFactory.collector
         (pipeline (StreamProcessor.processor_factory sp))) = None /\
    KafkaConsumer.configuration (StreamProcessor.consumer sp) !! "slice"
      = Some CfgNone.
Proof.
  construct Hinit w1 self. unfold build. assemble Hinit Hrun (@None Z) w2 sp.
  exists w1, self, w2, sp. split; [exact Hinit|]. split; [exact Hrun|].
  destruct (slices_independent _ _ _ _ _ _ _ _ _ _ _ _ _ _ _ _ _ Hinit Hrun)
    as (Hraw & _ & _ & Hslice & Hconfig).
  destruct (init_inv _ _ _ _ _ _ _ _ _ _ _ _ _ _ Hinit)
    as (st & ? & ? & ? & Hst & _ & _ & _ & _ & _ & _ & Hself).
  cbn in Hst. injection Hst as <-. rewrite Hself in Hraw.
  cbn in Hraw. injection Hraw as <-.
  split; [reflexivity|]. split; [exact Hslice|].
  destruct Hconfig as [-> | [interval ->]].
  - rewrite Hself. reflexivity.
  - rewrite dict_update_old by (apply lookup_pair_other; discriminate).
    rewrite Hself. reflexivity.
Defined.

Lemma producer_allocated_once_witness :
  exists w1 self,
    init "metrics_raw" (params "ingest-group" None None None) None None None start
      = (w1, Ok self) /\
    ConsumerBuilder.replacements_topic self = None /\
    ConsumerBuilder.commit_log_topic self = None /\
    producers_created (trace w1)
      = [(ConsumerBuilder.producer_broker_config self, ConsumerBuilder.producer self)].
Proof.
  construct Hinit w1 self. exists w1, self. split; [exact Hinit|].
  destruct (producer_allocated_once _ _ _ _ _ _ _ _ _ _ _ _ _ _ Hinit) as [Hcreated _].
  destruct (init_inv _ _ _ _ _ _ _ _ _ _ _ _ _ _ Hinit)
    as (st & ? & repl & cl & Hst & _ & _ & Hrepl & Hcl & _ & _ & Hself).
  cbn in Hst. injection Hst as <-.
  cbn in Hrepl, Hcl. injection Hrepl as <-. injection Hcl as <-.
  rewrite Hself at 1 2. repeat split. exact Hcreated.
Defined.

End on_the_example.

(** * Further properties of the builder *)

(** ** Where a run can fail *)

Section raising.
Context `{Objects}.
Implicit Types (w : world).

Lemma bind_Raise_inv {A B : Type} (m : M A) (f : A -> M B) w w' (e : Py.exn) :
  (m ≫= f) w = (w', Raise e) ->
  m w = (w', Raise e) \/
  exists a w1, m w = (w1, Ok a) /\ f a w1 = (w', Raise e).
Proof.
  unfold mbind, M_bind. destruct (m w) as [w1 [a|e1]]; intros Hm.
  - right. exists a, w1. split; [reflexivity | exact Hm].
  - left. injection Hm as -> ->. reflexivity.
Qed.

Lemma lift_inv {A : Type} (r r' : result A) w w' :
  lift r w = (w', r') -> w' = w /\ r' = r.
Proof. unfold lift. intros [= -> ->]. split; reflexivity. Qed.

End raising.

Section topic_blocks.
Context `{Collaborators}.
Implicit Types (w : world).

Lemma raw_topic_fails (override : option string) (spec : KafkaTopicSpec.t)
    slice w (e : Py.exn) :
  topic_rule override (Some spec) slice = Raise e ->
  match override with
  | Some name => mret (Topic.make name)
  | None => name ← lift (get_physical_topic_name spec slice); mret (Topic.make name)
  end w = (w, Raise e).
Proof.
  unfold topic_rule. destruct override as [name|]; [discriminate|].
  destruct (get_physical_topic_name spec slice) as [name|e1]; intros [= <-].
  reflexivity.
Qed.

Lemma optional_topic_fails (override : option string)
    (spec : option KafkaTopicSpec.t) slice w (e : Py.exn) :
  topic_rule override spec slice = Raise e ->
  match override with
  | Some name => mret (Some (Topic.make name))
  | None =>
      match spec with
      | Some s =>
          name ← lift (get_physical_topic_name s slice);
          mret (Some (Topic.make name))
      | None => mret None
      end
  end w = (w, Raise e).
Proof.
  unfold topic_rule. destruct override as [name|]; [discriminate|].
  destruct spec as [s|]; [|discriminate].
  destruct (get_physical_topic_name s slice) as [name|e1]; intros [= <-].
  reflexivity.
Qed.

(** Resolving a topic has no effect on the world, whatever comes out. *)
Lemma raw_topic_pure (override : option string) (spec : KafkaTopicSpec.t)
    slice w w' (r : result Topic.t) :
  match override with
  | Some name => mret (Topic.make name)
  | None => name ← lift (get_physical_topic_name spec slice); mret (Topic.make name)
  end w = (w', r) -> w' = w.
Proof.
  destruct override as [name|].
  - intros [= <- _]. reflexivity.
  - unfold mbind, M_bind, lift, mret, M_ret.
    destruct (get_physical_topic_name spec slice); intros [= <- _]; reflexivity.
Qed.

Lemma optional_topic_pure (override : option string)
    (spec : option KafkaTopicSpec.t) slice w w' (r : result (option Topic.t)) :
  match override with
  | Some name => mret (Some (Topic.make name))
  | None =>
      match spec with
      | Some s =>
          name ← lift (get_physical_topic_name s slice);
          mret (Some (Topic.make name))
      | None => mret None
      end
  end w = (w', r) -> w' = w.
Proof.
  destruct override as [name|]; [|destruct spec as [s|]].
  - intros [= <- _]. reflexivity.
  - unfold mbind, M_bind, lift, mret, M_ret.
    destruct (get_physical_topic_name s slice); intros [= <- _]; reflexivity.
  - intros [= <- _]. reflexivity.
Qed.

Lemma Producer_refused_run (config : BrokerConfig) w (e : Py.exn) :
  producer_refused config = Some e -> Producer config w = (w, Raise e).
Proof. unfold Producer. intros ->. reflexivity. Qed.

Lemma Producer_Raise_inv (config : BrokerConfig) w w' (e : Py.exn) :
  Producer config w = (w', Raise e) -> w' = w /\ producer_refused config = Some e.
Proof.
  unfold Producer. destruct (producer_refused config) as [e1|].
  - intros Hr. apply lift_inv in Hr as [-> [= ->]]. split; reflexivity.
  - cbv [mbind M_bind fresh emit mret M_ret]. discriminate.
Qed.

Lemma KafkaConsumer_new_Raise_inv (config : BrokerConfig) (policy : RetryPolicy)
    w w' (e : Py.exn) :
  KafkaConsumer_new config policy w = (w', Raise e) ->
  w' = w /\ consumer_refused config = Some e.
Proof.
  unfold KafkaConsumer_new. destruct (consumer_refused config) as [e1|].
  - intros Hr. apply lift_inv in Hr as [-> [= ->]]. split; reflexivity.
  - cbv [mbind M_bind fresh emit mret M_ret]. discriminate.
Qed.

Lemma no_client_since_refl w : no_client_since w w.
Proof. split; reflexivity. Qed.

Lemma no_client_since_logged st slice servers w :
  no_client_since w (logged st slice servers w).
Proof.
  split; [reflexivity|]. unfold logged, producers_created. cbn.
  rewrite omap_app. cbn. apply app_nil_r.
Qed.

End topic_blocks.

(** ** Construction: failures and success *)

Section construction_outcomes.
Context `{Collaborators}.
Implicit Types (w : world) (self : ConsumerBuilder.t).

(** X1. A construction that raises has created no client: no handle is
    allocated and no producer exists that did not exist before. *)
Theorem construction_failure_creates_nothing
    sk kp pp mbs mbt metrics slice cb pol vs path w w' e :
  ConsumerBuilder.__init__ sk kp pp mbs mbt metrics slice cb pol vs path w
    = (w', Raise e) ->
  no_client_since w w'.
Proof.
  unfold ConsumerBuilder.__init__. intros Hrun.
  apply bind_Raise_inv in Hrun as [Hst | (st & w1 & Hst & Hrun)].
  { apply lift_inv in Hst as [-> _]. apply no_client_since_refl. }
  apply lift_Ok_inv in Hst as [Hst ->]. cbv zeta in Hrun.
  apply bind_Raise_inv in Hrun as [Hval | ([] & w1 & Hval & Hrun)].
  { apply lift_inv in Hval as [-> _]. apply no_client_since_refl. }
  apply lift_Ok_inv in Hval as [Hval ->].
  apply bind_Raise_inv in Hrun as [Hlog | ([] & w1 & Hlog & Hrun)].
  { unfold logger_info, emit in Hlog. discriminate Hlog. }
  unfold logger_info, emit in Hlog. injection Hlog as <-.
  fold (logical_topic_of st) in Hrun.
  fold (logged st slice (KafkaParameters.bootstrap_servers kp) w) in Hrun.
  assert (Hlogged := no_client_since_logged st slice
                       (KafkaParameters.bootstrap_servers kp) w).
  apply bind_Raise_inv in Hrun as [Hraw | (raw & w2 & Hraw & Hrun)].
  { apply raw_topic_pure in Hraw as ->. exact Hlogged. }
  apply raw_topic_pure in Hraw as ->.
  apply bind_Raise_inv in Hrun as [Hrepl | (repl & w3 & Hrepl & Hrun)].
  { apply optional_topic_pure in Hrepl as ->. exact Hlogged. }
  apply optional_topic_pure in Hrepl as ->.
  apply bind_Raise_inv in Hrun as [Hcl | (cl & w4 & Hcl & Hrun)].
  { apply optional_topic_pure in Hcl as ->. exact Hlogged. }
  apply optional_topic_pure in Hcl as ->.
  apply bind_Raise_inv in Hrun as [Hprod | (h & w5 & Hprod & Hrun)].
  { apply Producer_Raise_inv in Hprod as [-> _]. exact Hlogged. }
  discriminate Hrun.
Qed.

(** X2. When the physical name of a topic cannot be found, the
    constructor raises the error of the lookup: that of the raw topic
    first, then that of the replacements topic, then that of the
    commit-log topic.  The log line is written by then, and no producer
    is created. *)
Theorem topic_resolution_failure
    sk kp pp mbs mbt metrics slice cb pol vs path w st e :
  let loader := stream_loader_of st in
  let raw_rule :=
    topic_rule (KafkaParameters.raw_topic kp)
               (Some (KafkaStreamLoader.get_default_topic_spec loader)) slice in
  let replacements_rule :=
    topic_rule (KafkaParameters.replacements_topic kp)
               (KafkaStreamLoader.get_replacement_topic_spec loader) slice in
  let commit_log_rule :=
    topic_rule (KafkaParameters.commit_log_topic kp)
               (KafkaStreamLoader.get_commit_log_topic_spec loader) slice in
  get_writable_storage sk = Ok st ->
  validate_passed_slice (WritableTableStorage.get_storage_set_key st) slice = Ok tt ->
  raw_rule = Raise e \/
  (exists raw, raw_rule = Ok (Some raw)) /\
  (replacements_rule = Raise e \/
   (exists repl, replacements_rule = Ok repl) /\ commit_log_rule = Raise e) ->
  ConsumerBuilder.__init__ sk kp pp mbs mbt metrics slice cb pol vs path w
    = (logged st slice (KafkaParameters.bootstrap_servers kp) w, Raise e).
Proof.
  intros loader raw_rule replacements_rule commit_log_rule Hst Hval Hfail.
  unfold ConsumerBuilder.__init__.
  rewrite (bind_Ok _ _ w w st) by (unfold lift; rewrite Hst; reflexivity).
  cbv zeta.
  rewrite (bind_Ok _ _ w w tt) by (unfold lift; rewrite Hval; reflexivity).
  erewrite bind_Ok by reflexivity.
  fold (logical_topic_of st).
  fold (logged st slice (KafkaParameters.bootstrap_servers kp) w).
  destruct Hfail as [Hraw | [[raw Hraw] Hfail]].
  { apply bind_Raise, raw_topic_fails. exact Hraw. }
  erewrite bind_Ok by (apply raw_topic_run; exact Hraw).
  destruct Hfail as [Hrepl | [[repl Hrepl] Hcl]].
  { apply bind_Raise, optional_topic_fails. exact Hrepl. }
  erewrite bind_Ok by (apply optional_topic_run; exact Hrepl).
  apply bind_Raise, optional_topic_fails. exact Hcl.
Qed.

(** X3. When the client library refuses the producer configuration, the
    constructor raises its error after the topics are resolved; the log
    line is written, and no handle is allocated. *)
Theorem producer_refusal
    sk kp pp mbs mbt metrics slice cb pol vs path w st raw repl cl e :
  let loader := stream_loader_of st in
  get_writable_storage sk = Ok st ->
  validate_passed_slice (WritableTableStorage.get_storage_set_key st) slice = Ok tt ->
  topic_rule (KafkaParameters.raw_topic kp)
             (Some (KafkaStreamLoader.get_default_topic_spec loader)) slice
    = Ok (Some raw) ->
  topic_rule (KafkaParameters.replacements_topic kp)
             (KafkaStreamLoader.get_replacement_topic_spec loader) slice
    = Ok repl ->
  topic_rule (KafkaParameters.commit_log_topic kp)
             (KafkaStreamLoader.get_commit_log_topic_spec loader) slice
    = Ok cl ->
  producer_refused
    (build_kafka_producer_configuration
       (logical_topic_of st) slice (KafkaParameters.bootstrap_servers kp)
       {[ "partitioner" := CfgStr "consistent";
          "message.max.bytes" := CfgInt 50000000 ]}) = Some e ->
  ConsumerBuilder.__init__ sk kp pp mbs mbt metrics slice cb pol vs path w
    = (logged st slice (KafkaParameters.bootstrap_servers kp) w, Raise e).
Proof.
  intros loader Hst Hval Hraw Hrepl Hcl Hrefused.
  unfold ConsumerBuilder.__init__.
  rewrite (bind_Ok _ _ w w st) by (unfold lift; rewrite Hst; reflexivity).
  cbv zeta.
  rewrite (bind_Ok _ _ w w tt) by (unfold lift; rewrite Hval; reflexivity).
  erewrite bind_Ok by reflexivity.
  fold (logical_topic_of st).
  fold (logged st slice (KafkaParameters.bootstrap_servers kp) w).
  erewrite bind_Ok by (apply raw_topic_run; exact Hraw).
  erewrite bind_Ok by (apply optional_topic_run; exact Hrepl).
  erewrite bind_Ok by (apply optional_topic_run; exact Hcl).
  apply bind_Raise, Producer_refused_run. exact Hrefused.
Qed.

(** X5. With the three topics overridden the constructor never looks a
    physical name up: it returns a builder with the three overrides as
    its topics, whatever the lookup would do. *)
Theorem overrides_bypass_lookup
    sk kp pp mbs mbt metrics slice cb pol vs path w st raw repl cl :
  KafkaParameters.raw_topic kp = Some raw ->
  KafkaParameters.replacements_topic kp = Some repl ->
  KafkaParameters.commit_log_topic kp = Some cl ->
  get_writable_storage sk = Ok st ->
  validate_passed_slice (WritableTableStorage.get_storage_set_key st) slice = Ok tt ->
  producer_refused
    (build_kafka_producer_configuration
       (logical_topic_of st) slice (KafkaParameters.bootstrap_servers kp)
       {[ "partitioner" := CfgStr "consistent";
          "message.max.bytes" := CfgInt 50000000 ]}) = None ->
  exists w' self,
    ConsumerBuilder.__init__ sk kp pp mbs mbt metrics slice cb pol vs path w
      = (w', Ok self) /\
    ConsumerBuilder.raw_topic self = Topic.make raw /\
    ConsumerBuilder.replacements_topic self = Some (Topic.make repl) /\
    ConsumerBuilder.commit_log_topic self = Some (Topic.make cl).
Proof.
  intros Hraw Hrepl Hcl Hst Hval Hacc.
  destruct (init_succeeds sk kp pp mbs mbt metrics slice cb pol vs path w
              st (Topic.make raw) (Some (Topic.make repl)) (Some (Topic.make cl)))
    as (w' & self & Hinit); try assumption.
  - rewrite Hraw. reflexivity.
  - rewrite Hrepl. reflexivity.
  - rewrite Hcl. reflexivity.
  - exists w', self. split; [exact Hinit|].
    destruct (init_inv _ _ _ _ _ _ _ _ _ _ _ _ _ _ Hinit)
      as (st' & raw' & repl' & cl' & _ & _ & Hraw' & Hrepl' & Hcl' & _ & _ & ->).
    rewrite Hraw in Hraw'. rewrite Hrepl in Hrepl'. rewrite Hcl in Hcl'.
    cbn in Hraw', Hrepl', Hcl'.
    injection Hraw' as <-. injection Hrepl' as <-. injection Hcl' as <-.
    repeat split.
Qed.

End construction_outcomes.

(** ** Build: failures and success *)

Section build_outcomes.
Context `{Collaborators}.
Implicit Types (w : world) (self : ConsumerBuilder.t) (sp : StreamProcessor.t).


(** The profiler wraps the strategy factory once, or not at all. *)
Lemma factory_shape self slice sf :
  ConsumerBuilder.__build_streaming_strategy_factory self slice = Ok sf ->
  sf = match ConsumerBuilder.__profile_path self with
       | Some path => ProcessingStrategyProfilerWrapperFactory (Plain (pipeline sf)) path
       | None => Plain (pipeline sf)
       end.
Proof.
  unfold ConsumerBuilder.__build_streaming_strategy_factory. cbv zeta.
  destruct (Py.int_truediv_float _ _) as [t|e]; [|discriminate].
  destruct (ConsumerBuilder.__profile_path self) as [path|].
  - intros Hsf. apply ProfilerWrapper_new_inv in Hsf as [_ ->]. reflexivity.
  - intros [= <-]. reflexivity.
Qed.

Lemma collects_not_a_number (interval : ConfigValue) :
  not_a_number interval -> collects interval = Raise Py.TypeError.
Proof.
  unfold collects. destruct interval as [s|n|f|b| |g]; cbn; try contradiction.
  - intros Hs. destruct (String.eqb_spec s ""); [contradiction | reflexivity].
  - reflexivity.
Qed.

Lemma StreamProcessor_new_Raise_inv (consumer : KafkaConsumer.t) (topic : Topic.t)
    (factory : ProcessingStrategyFactory) (policy : CommitPolicy)
    w w' (e : Py.exn) :
  StreamProcessor_new consumer topic factory policy w = (w', Raise e) ->
  w' = w /\ subscription_refused consumer topic = Some e.
Proof.
  unfold StreamProcessor_new. destruct (subscription_refused consumer topic) as [e1|].
  - intros Hr. apply lift_inv in Hr as [-> [= ->]]. split; reflexivity.
  - discriminate.
Qed.

(** A build whose consumer cannot be subscribed raises with the consumer
    created. *)
Lemma build_subscription_refused self slice w (f : spec_float) (collect : bool) e :
  Py.float_of_int (ConsumerBuilder.max_batch_time_ms self) = Ok f ->
  collects (stats_interval (ConsumerBuilder.group_id self)) = Ok collect ->
  consumer_refused (consumer_configuration self slice collect) = None ->
  (forall path, ConsumerBuilder.__profile_path self = Some path ->
                profiler_refused path = None) ->
  subscription_refused
    {| KafkaConsumer.client := next_handle w;
       KafkaConsumer.configuration := consumer_configuration self slice collect;
       KafkaConsumer.commit_retry_policy :=
         ConsumerBuilder.__commit_retry_policy self |}
    (ConsumerBuilder.raw_topic self) = Some e ->
  ConsumerBuilder.build_base_consumer self slice w
  = ({| trace := trace w ++
                 [EvKafkaConsumer (consumer_configuration self slice collect)
                    (ConsumerBuilder.__commit_retry_policy self) (next_handle w)];
        next_handle := S (next_handle w) |}, Raise e).
Proof.
  intros Hf Hcollect Hacc Hprofiler Hsub.
  unfold ConsumerBuilder.build_base_consumer.
  destruct (factory_run self slice f Hf Hprofiler) as [sf Hsf].
  rewrite (bind_Ok _ _ w w sf) by (unfold lift; rewrite Hsf; reflexivity).
  unfold ConsumerBuilder.__build_consumer. cbv zeta.
  rewrite (bind_Ok _ _ w w collect) by (unfold lift; f_equal; exact Hcollect).
  erewrite bind_Ok
    by exact (KafkaConsumer_new_accepted _
                (ConsumerBuilder.__commit_retry_policy self) w Hacc).
  cbv beta. unfold StreamProcessor_new. rewrite Hsub. reflexivity.
Qed.

(** X6. A build that raises has created no producer.  It leaves the
    world as it was unless the error comes from the stream processor's
    subscription: then, and only then, one consumer client has been
    created, which no stream processor holds. *)
Theorem build_failure_effects self slice w w' e :
  ConsumerBuilder.build_base_consumer self slice w = (w', Raise e) ->
  producers_created (trace w') = producers_created (trace w) /\
  (w' = w \/
   exists collect,
     let consumer :=
       {| KafkaConsumer.client := next_handle w;
          KafkaConsumer.configuration := consumer_configuration self slice collect;
          KafkaConsumer.commit_retry_policy :=
            ConsumerBuilder.__commit_retry_policy self |} in
     subscription_refused consumer (ConsumerBuilder.raw_topic self) = Some e /\
     w' = {| trace := trace w ++
                      [EvKafkaConsumer (KafkaConsumer.configuration consumer)
                         (KafkaConsumer.commit_retry_policy consumer)
                         (KafkaConsumer.client consumer)];
             next_handle := S (next_handle w) |}).
Proof.
  unfold ConsumerBuilder.build_base_consumer. intros Hrun.
  apply bind_Raise_inv in Hrun as [Hsf | (sf & w1 & Hsf & Hrun)].
  { apply lift_inv in Hsf as [-> _]. split; [reflexivity | left; reflexivity]. }
  apply lift_Ok_inv in Hsf as [_ ->].
  unfold ConsumerBuilder.__build_consumer in Hrun. cbv zeta in Hrun.
  apply bind_Raise_inv in Hrun as [Hcollect | (collect & w1 & Hcollect & Hrun)].
  { apply lift_inv in Hcollect as [-> _]. split; [reflexivity | left; reflexivity]. }
  apply lift_Ok_inv in Hcollect as [_ ->].
  apply bind_Raise_inv in Hrun as [Hc | (c & w1 & Hc & Hrun)].
  { apply KafkaConsumer_new_Raise_inv in Hc as [-> _].
    split; [reflexivity | left; reflexivity]. }
  apply KafkaConsumer_new_inv in Hc as (_ & -> & ->).
  apply StreamProcessor_new_Raise_inv in Hrun as [-> Hsub].
  split.
  - unfold producers_created. cbn [trace]. rewrite omap_app. cbn.
    rewrite app_nil_r. reflexivity.
  - right. exists collect. cbv zeta. split; [exact Hsub | reflexivity].
Qed.


(** X9. Once the strategy factory is assembled, a statistics interval
    that is a true value but not a number (a non-empty string, a
    callable) makes the build raise [TypeError] before a consumer is
    created, whether or not the client library would accept the
    configuration. *)
Theorem build_type_error self slice w sf :
  ConsumerBuilder.__build_streaming_strategy_factory self slice = Ok sf ->
  not_a_number
    (get_config ("stats_collection_freq_ms_" +:+ ConsumerBuilder.group_id self)
                (get_config "stats_collection_freq_ms" (CfgInt 0))) ->
  ConsumerBuilder.build_base_consumer self slice w = (w, Raise Py.TypeError).
Proof.
  intros Hsf Hnan. apply collects_not_a_number in Hnan.
  unfold ConsumerBuilder.build_base_consumer.
  rewrite (bind_Ok _ _ w w sf) by (unfold lift; rewrite Hsf; reflexivity).
  unfold ConsumerBuilder.__build_consumer. cbv zeta.
  apply bind_Raise. unfold lift. f_equal. exact Hnan.
Qed.

(** X10. A build creates exactly one consumer client, from the
    configuration the stream processor's consumer holds and with the
    retry policy chosen at construction: the policy supplied, or the
    default one. *)
Theorem consumer_created_with_policy
    sk kp pp mbs mbt metrics slice cb pol vs path w w1 self slice' w2 sp :
  ConsumerBuilder.__init__ sk kp pp mbs mbt metrics slice cb pol vs path w
    = (w1, Ok self) ->
  ConsumerBuilder.build_base_consumer self slice' w1 = (w2, Ok sp) ->
  let policy :=
    match pol with
    | Some p => p
    | None => BasicRetryPolicy 3 1 ConsumerBuilder.commit_retry_test
    end in
  let consumer := StreamProcessor.consumer sp in
  KafkaConsumer.commit_retry_policy consumer = policy /\
  KafkaConsumer.client consumer = next_handle w1 /\
  next_handle w2 = S (next_handle w1) /\
  trace w2 =
    (trace w1 ++
     [EvKafkaConsumer (KafkaConsumer.configuration consumer) policy
                      (KafkaConsumer.client consumer)])%list.
Proof.
  intros Hinit Hrun.
  destruct (init_inv _ _ _ _ _ _ _ _ _ _ _ _ _ _ Hinit)
    as (st & raw & repl & cl & _ & _ & _ & _ & _ & _ & _ & Hself).
  apply build_base_consumer_inv in Hrun as (sf & _ & Hrun).
  apply build_consumer_inv in Hrun as (collect & _ & _ & -> & -> & _).
  subst self. cbn. destruct pol; repeat split.
Qed.

(** X11. The strategy factory of the stream processor is wrapped in the
    profiler, once and with the path given, exactly when a profile path
    was given to the constructor; it is the bare factory otherwise. *)
Theorem profiler_wrapping
    sk kp pp mbs mbt metrics slice cb pol vs path w w1 self slice' w2 sp :
  ConsumerBuilder.__init__ sk kp pp mbs mbt metrics slice cb pol vs path w
    = (w1, Ok self) ->
  ConsumerBuilder.build_base_consumer self slice' w1 = (w2, Ok sp) ->
  StreamProcessor.processor_factory sp =
    match path with
    | Some p =>
        ProcessingStrategyProfilerWrapperFactory
          (Plain (pipeline (StreamProcessor.processor_factory sp))) p
    | None => Plain (pipeline (StreamProcessor.processor_factory sp))
    end.
Proof.
  intros Hinit Hrun.
  destruct (init_inv _ _ _ _ _ _ _ _ _ _ _ _ _ _ Hinit)
    as (st & raw & repl & cl & _ & _ & _ & _ & _ & _ & _ & Hself).
  apply build_base_consumer_inv in Hrun as (sf & Hsf & Hrun).
  apply build_consumer_inv in Hrun as (collect & _ & _ & -> & _).
  apply factory_shape in Hsf. subst self. cbn in *. exact Hsf.
Qed.

(** X12. The pipeline takes the process count and the block sizes of the
    processing parameters unchanged, the pre-filter and the dead-letter
    policy creator of the storage's stream loader, and its collector is
    bound to the storage's table writer and to the metrics backend given
    to the constructor. *)
Theorem execution_parameters_passed
    sk kp pp mbs mbt metrics slice cb pol vs path w w1 self slice' w2 sp :
  ConsumerBuilder.__init__ sk kp pp mbs mbt metrics slice cb pol vs path w
    = (w1, Ok self) ->
  ConsumerBuilder.build_base_consumer self slice' w1 = (w2, Ok sp) ->
  let factory := pipeline (StreamProcessor.processor_factory sp) in
  let loader := stream_loader_of (ConsumerBuilder.storage self) in
  KafkaConsumerStrategyFactory.processes factory
    = ProcessingParameters.processes pp /\
  KafkaConsumerStrategyFactory.input_block_size factory
    = ProcessingParameters.input_block_size pp /\
  KafkaConsumerStrategyFactory.output_block_size factory
    = ProcessingParameters.output_block_size pp /\
  KafkaConsumerStrategyFactory.prefilter factory
    = KafkaStreamLoader.get_pre_filter loader /\
  KafkaConsumerStrategyFactory.dead_letter_queue_policy_creator factory
    = KafkaStreamLoader.get_dead_letter_queue_policy_creator loader /\
  BatchWriter.table_writer (KafkaConsumerStrategyFactory.collector factory)
    = WritableTableStorage.get_table_writer (ConsumerBuilder.storage self) /\
  BatchWriter.metrics (KafkaConsumerStrategyFactory.collector factory) = metrics.
Proof.
  intros Hinit Hrun.
  destruct (init_inv _ _ _ _ _ _ _ _ _ _ _ _ _ _ Hinit)
    as (st & raw & repl & cl & _ & _ & _ & _ & _ & _ & _ & Hself).
  apply build_base_consumer_inv in Hrun as (sf & Hsf & Hrun).
  apply build_consumer_inv in Hrun as (collect & _ & _ & -> & _).
  apply factory_inv in Hsf as (f & _ & Hsf).
  cbn. rewrite Hsf. subst self. cbn. repeat split.
Qed.

(** X13. Up to an hour, a [max_batch_time_ms] that is a whole number of
    seconds gives a time bound of exactly that number of seconds. *)
Theorem whole_seconds_bound
    sk kp pp mbs seconds metrics slice cb pol vs path w w1 self slice' w2 sp :
  0 <= seconds <= 3600 ->
  ConsumerBuilder.__init__ sk kp pp mbs (1000 * seconds) metrics slice cb pol vs
    path w = (w1, Ok self) ->
  ConsumerBuilder.build_base_consumer self slice' w1 = (w2, Ok sp) ->
  Py.float_of_int seconds
    = Ok (KafkaConsumerStrategyFactory.max_batch_time
            (pipeline (StreamProcessor.processor_factory sp))).
Proof.
  intros Hrange Hinit Hrun.
  destruct (init_inv _ _ _ _ _ _ _ _ _ _ _ _ _ _ Hinit)
    as (st & raw & repl & cl & _ & _ & _ & _ & _ & _ & _ & Hself).
  apply build_base_consumer_inv in Hrun as (sf & Hsf & Hrun).
  apply build_consumer_inv in Hrun as (collect & _ & _ & -> & _).
  apply factory_inv in Hsf as (f & Hf & Hsf).
  cbn. rewrite Hsf. subst self. cbn in *.
  rewrite <- (whole_seconds_exact seconds Hrange).
  apply int_truediv_float_1000. exists f. split; [exact Hf | reflexivity].
Qed.

(** X14. When the consumer group has no statistics setting of its own,
    the global setting decides: the statistics entries are added when it
    is strictly positive and the configuration is left alone when it is
    not; when the global setting is unset too, the configuration is left
    alone. *)
Theorem unset_settings_fallback
    sk kp pp mbs mbt metrics slice cb pol vs path w w1 self slice' w2 sp :
  ConsumerBuilder.__init__ sk kp pp mbs mbt metrics slice cb pol vs path w
    = (w1, Ok self) ->
  ConsumerBuilder.build_base_consumer self slice' w1 = (w2, Ok sp) ->
  (forall default,
     get_config ("stats_collection_freq_ms_" +:+ KafkaParameters.group_id kp) default
     = default) ->
  let global := get_config "stats_collection_freq_ms" (CfgInt 0) in
  let base :=
    build_kafka_consumer_configuration
      (logical_topic_of (ConsumerBuilder.storage self))
      (KafkaParameters.bootstrap_servers kp) (KafkaParameters.group_id kp) slice'
      (KafkaParameters.auto_offset_reset kp) (KafkaParameters.strict_offset_reset kp)
      (KafkaParameters.queued_max_messages_kbytes kp)
      (KafkaParameters.queued_min_messages kp) in
  let config := KafkaConsumer.configuration (StreamProcessor.consumer sp) in
  (positive global ->
   config !! "statistics.interval.ms" = Some global /\
   config !! "stats_cb" = Some (of_callback cb)) /\
  (~ positive global -> config = base) /\
  ((forall default, get_config "stats_collection_freq_ms" default = default) ->
   config = base).
Proof.
  intros Hinit Hrun Hunset.
  destruct (init_inv _ _ _ _ _ _ _ _ _ _ _ _ _ _ Hinit)
    as (st & raw & repl & cl & _ & _ & _ & _ & _ & _ & _ & Hself).
  apply build_base_consumer_inv in Hrun as (sf & _ & Hrun).
  apply build_consumer_inv in Hrun as (collect & Hcollect & _ & -> & _).
  apply collects_positive in Hcollect.
  subst self. unfold consumer_configuration, consumer_base, stats_interval in *.
  cbn in *. rewrite Hunset in *.
  set (global := get_config "stats_collection_freq_ms" (CfgInt 0)) in *.
  assert (Hleft : ~ positive global ->
            (if collect
             then dict_update
                    (build_kafka_consumer_configuration (logical_topic_of st)
                       (KafkaParameters.bootstrap_servers kp)
                       (KafkaParameters.group_id kp) slice'
                       (KafkaParameters.auto_offset_reset kp)
                       (KafkaParameters.strict_offset_reset kp)
                       (KafkaParameters.queued_max_messages_kbytes kp)
                       (KafkaParameters.queued_min_messages kp))
                    {[ "statistics.interval.ms" := global;
                       "stats_cb" := of_callback cb ]}
             else
               build_kafka_consumer_configuration (logical_topic_of st)
                 (KafkaParameters.bootstrap_servers kp)
                 (KafkaParameters.group_id kp) slice'
                 (KafkaParameters.auto_offset_reset kp)
                 (KafkaParameters.strict_offset_reset kp)
                 (KafkaParameters.queued_max_messages_kbytes kp)
                 (KafkaParameters.queued_min_messages kp))
            = build_kafka_consumer_configuration (logical_topic_of st)
                (KafkaParameters.bootstrap_servers kp)
                (KafkaParameters.group_id kp) slice'
                (KafkaParameters.auto_offset_reset kp)
                (KafkaParameters.strict_offset_reset kp)
                (KafkaParameters.queued_max_messages_kbytes kp)
                (KafkaParameters.queued_min_messages kp)).
  { intros Hneg. destruct collect; [|reflexivity].
    exfalso. apply Hneg, Hcollect. reflexivity. }
  split; [|split].
  - intros Hpos. apply Hcollect in Hpos. subst collect. split.
    + apply dict_update_new, lookup_pair_fst.
    + apply dict_update_new, lookup_pair_snd. discriminate.
  - exact Hleft.
  - intros Hglobal. apply Hleft. subst global. rewrite Hglobal. cbn. lia.
Qed.

(** X15. Consumers built one after the other from the same builder get
    different clients, and no producer is created for them: the
    collectors hold the same producer, that of the builder. *)
Theorem rebuild_shares_producer self slice1 slice2 w1 w2 w3 sp1 sp2 :
  ConsumerBuilder.build_base_consumer self slice1 w1 = (w2, Ok sp1) ->
  ConsumerBuilder.build_base_consumer self slice2 w2 = (w3, Ok sp2) ->
  let bw1 := KafkaConsumerStrategyFactory.collector
               (pipeline (StreamProcessor.processor_factory sp1)) in
  let bw2 := KafkaConsumerStrategyFactory.collector
               (pipeline (StreamProcessor.processor_factory sp2)) in
  producers_created (trace w3) = producers_created (trace w1) /\
  KafkaConsumer.client (StreamProcessor.consumer sp1)
    <> KafkaConsumer.client (StreamProcessor.consumer sp2) /\
  BatchWriter.replacements_producer bw1 = BatchWriter.replacements_producer bw2 /\
  CommitLogConfig.producer <$> BatchWriter.commit_log_config bw1
    = CommitLogConfig.producer <$> BatchWriter.commit_log_config bw2 /\
  (forall h, BatchWriter.replacements_producer bw2 = Some h ->
             h = ConsumerBuilder.producer self) /\
  (forall c, BatchWriter.commit_log_config bw2 = Some c ->
             CommitLogConfig.producer c = ConsumerBuilder.producer self).
Proof.
  intros Hrun1 Hrun2.
  apply build_base_consumer_inv in Hrun1 as (sf1 & Hsf1 & Hrun1).
  apply build_consumer_inv in Hrun1 as (collect1 & _ & _ & -> & -> & _).
  apply factory_inv in Hsf1 as (f1 & _ & Hsf1).
  apply build_base_consumer_inv in Hrun2 as (sf2 & Hsf2 & Hrun2).
  apply build_consumer_inv in Hrun2 as (collect2 & _ & _ & -> & -> & _).
  apply factory_inv in Hsf2 as (f2 & _ & Hsf2).
  cbn. rewrite Hsf1, Hsf2. cbn. split; [|split; [|split; [|split; [|split]]]].
  - unfold producers_created. rewrite !omap_app. cbn. rewrite !app_nil_r. reflexivity.
  - lia.
  - reflexivity.
  - destruct (ConsumerBuilder.commit_log_topic self); reflexivity.
  - destruct (ConsumerBuilder.replacements_topic self); intros h [= <-]. reflexivity.
  - destruct (ConsumerBuilder.commit_log_topic self); intros c [= <-]. reflexivity.
Qed.


End build_outcomes.

(** ** The further properties on the example installations *)

Section on_the_installations.
Import Example.
#[local] Existing Instance objects.

(** Runs the constructor in the goal, on whatever installation. *)
Ltac construct_on Hinit w1 self :=
  match goal with
  | |- context [@ConsumerBuilder.__init__ _ ?C ?sk ?kp ?pp ?mbs ?mbt ?m ?sl ?cb
                                         ?pol ?vs ?path ?w] =>
      edestruct (init_succeeds (H0 := C) sk kp pp mbs mbt m sl cb pol vs path w)
        as (w1 & self & Hinit); [reflexivity .. |]
  end.

(** Replaces the builder of [Hinit] by its attributes. *)
Ltac attributes Hinit :=
  destruct (init_inv _ _ _ _ _ _ _ _ _ _ _ _ _ _ Hinit)
    as (? & ? & ? & ? & _ & _ & _ & _ & _ & _ & _ & ->).

(** Runs [build_base_consumer] on the builder of [Hinit]. *)
Ltac assemble_on C Hinit Hrun slice w2 sp :=
  match type of Hinit with
  | _ = (?w1, Ok ?self) =>
      edestruct (build_succeeds (H0 := C) self slice w1) as (w2 & sp & Hrun);
      [ attributes Hinit; vm_compute; reflexivity
      | attributes Hinit; vm_compute; reflexivity
      | reflexivity
      | attributes Hinit; cbn; intros ? [= <-]; reflexivity
      | reflexivity
      | ]
  end.

Lemma construction_failure_creates_nothing_witness :
  exists w' e,
    @ConsumerBuilder.__init__ objects
      (Faulty.collaborators (CfgInt 0) (Some (Py.Exception "KafkaException")) None)
      "errors" (params "ingest-group" None None None) single_process
      50000 2000 "metrics" None None None None None start = (w', Raise e) /\
    no_client_since start w'.
Proof.
  destruct (@ConsumerBuilder.__init__ _ _ _ _ _ _ _ _ _ _ _ _ _ _)
    as [w' [self|e]] eqn:Hinit.
  - exfalso. vm_compute in Hinit. discriminate Hinit.
  - exists w', e. split; [reflexivity|].
    exact (construction_failure_creates_nothing _ _ _ _ _ _ _ _ _ _ _ _ _ _ Hinit).
Defined.

Lemma topic_resolution_failure_witness :
  @ConsumerBuilder.__init__ objects (Faulty.collaborators (CfgInt 0) None None)
    "errors" (params "ingest-group" None None None) single_process
    50000 2000 "metrics" (Some 1) None None None None start
  = (@logged objects (Faulty.collaborators (CfgInt 0) None None)
       errors (Some 1) None start,
     Raise (Py.Exception "KeyError")).
Proof.
  apply (topic_resolution_failure (H0 := Faulty.collaborators (CfgInt 0) None None))
    with (st := errors); [reflexivity | reflexivity |].
  right. split; [eexists; reflexivity|]. left. reflexivity.
Defined.

Lemma producer_refusal_witness :
  @ConsumerBuilder.__init__ objects
    (Faulty.collaborators (CfgInt 0) (Some (Py.Exception "KafkaException")) None)
    "errors" (params "ingest-group" None None None) single_process
    50000 2000 "metrics" None None None None None start
  = (@logged objects
       (Faulty.collaborators (CfgInt 0) (Some (Py.Exception "KafkaException")) None)
       errors None None start,
     Raise (Py.Exception "KafkaException")).
Proof.
  eapply (producer_refusal
            (H0 := Faulty.collaborators (CfgInt 0)
                     (Some (Py.Exception "KafkaException")) None))
    with (st := errors); reflexivity.
Defined.

Lemma overrides_bypass_lookup_witness :
  get_physical_topic_name (Collaborators := Faulty.collaborators (CfgInt 0) None None)
    {| KafkaTopicSpec.topic := "event-replacements" |} (Some 1)
    = Raise (Py.Exception "KeyError") /\
  exists w' self,
    @ConsumerBuilder.__init__ objects (Faulty.collaborators (CfgInt 0) None None)
      "errors" (params "ingest-group" (Some "raw") (Some "repl") (Some "commits"))
      single_process 50000 2000 "metrics" (Some 1) None None None None start
      = (w', Ok self) /\
    ConsumerBuilder.raw_topic self = Topic.make "raw" /\
    ConsumerBuilder.replacements_topic self = Some (Topic.make "repl") /\
    ConsumerBuilder.commit_log_topic self = Some (Topic.make "commits").
Proof.
  split; [reflexivity|].
  apply (overrides_bypass_lookup (H0 := Faulty.collaborators (CfgInt 0) None None))
    with (st := errors); reflexivity.
Defined.

Lemma build_failure_effects_witness :
  exists w1 self w' e,
    @ConsumerBuilder.__init__ objects
      (Faulty.collaborators_with (CfgInt 0) None None
         (Some (Py.Exception "KafkaException")))
      "errors" (params "ingest-group" None None None) single_process
      50000 2000 "metrics" None None None None None start = (w1, Ok self) /\
    @ConsumerBuilder.build_base_consumer objects
      (Faulty.collaborators_with (CfgInt 0) None None
         (Some (Py.Exception "KafkaException")))
      self None w1 = (w', Raise e) /\
    producers_created (trace w') = producers_created (trace w1) /\
    next_handle w' = S (next_handle w1).
Proof.
  construct_on Hinit w1 self.
  eassert (Hrun :
    @ConsumerBuilder.build_base_consumer objects
      (Faulty.collaborators_with (CfgInt 0) None None
         (Some (Py.Exception "KafkaException")))
      self None w1 = (_, Raise (Py.Exception "KafkaException"))).
  { eapply build_subscription_refused.
    - attributes Hinit. vm_compute. reflexivity.
    - attributes Hinit. vm_compute. reflexivity.
    - reflexivity.
    - attributes Hinit. cbn. intros ? [= <-].
    - reflexivity. }
  eexists w1, self, _, _. split; [exact Hinit|]. split; [exact Hrun|].
  split; [|reflexivity].
  exact (proj1 (build_failure_effects _ _ _ _ _ Hrun)).
Defined.


Lemma build_type_error_witness :
  exists w1 self,
    @ConsumerBuilder.__init__ objects (Faulty.collaborators (CfgStr "often") None None)
      "errors" (params "ingest-group" None None None) single_process
      50000 2000 "metrics" None None None None None start = (w1, Ok self) /\
    @ConsumerBuilder.build_base_consumer objects
      (Faulty.collaborators (CfgStr "often") None None) self None w1
    = (w1, Raise Py.TypeError).
Proof.
  construct_on Hinit w1 self. exists w1, self. split; [exact Hinit|].
  edestruct (factory_run (H0 := Faulty.collaborators (CfgStr "often") None None)
               self None) as [sf Hsf].
  - attributes Hinit. vm_compute. reflexivity.
  - attributes Hinit. cbn. intros ? [= <-].
  - eapply build_type_error; [exact Hsf|]. cbn. discriminate.
Defined.


Lemma consumer_created_with_policy_witness :
  exists w1 self w2 sp,
    init "errors" (params "ingest-group" None None None) None (Some NoRetryPolicy)
         None start = (w1, Ok self) /\
    build self None w1 = (w2, Ok sp) /\
    KafkaConsumer.commit_retry_policy (StreamProcessor.consumer sp) = NoRetryPolicy /\
    KafkaConsumer.client (StreamProcessor.consumer sp) = 1%nat.
Proof.
  unfold init, build. construct_on Hinit w1 self.
  assemble_on collaborators Hinit Hrun (@None Z) w2 sp.
  exists w1, self, w2, sp. split; [exact Hinit|]. split; [exact Hrun|].
  destruct (consumer_created_with_policy _ _ _ _ _ _ _ _ _ _ _ _ _ _ _ _ _ Hinit Hrun)
    as (Hpolicy & Hclient & _).
  split; [exact Hpolicy|]. rewrite Hclient.
  destruct (init_inv _ _ _ _ _ _ _ _ _ _ _ _ _ _ Hinit)
    as (? & ? & ? & ? & _ & _ & _ & _ & _ & _ & -> & _).
  reflexivity.
Defined.

Lemma profiler_wrapping_witness :
  exists w1 self w2 sp inner,
    @ConsumerBuilder.__init__ objects collaborators
      "errors" (params "ingest-group" None None None) single_process
      50000 2000 "metrics" None None None None (Some "/tmp/profiles") start
      = (w1, Ok self) /\
    build self None w1 = (w2, Ok sp) /\
    StreamProcessor.processor_factory sp
      = ProcessingStrategyProfilerWrapperFactory (Plain inner) "/tmp/profiles".
Proof.
  unfold build. construct_on Hinit w1 self.
  assemble_on collaborators Hinit Hrun (@None Z) w2 sp.
  exists w1, self, w2, sp, (pipeline (StreamProcessor.processor_factory sp)).
  split; [exact Hinit|]. split; [exact Hrun|].
  exact (profiler_wrapping _ _ _ _ _ _ _ _ _ _ _ _ _ _ _ _ _ Hinit Hrun).
Defined.

Lemma execution_parameters_passed_witness :
  exists w1 self w2 sp,
    init "errors" (params "ingest-group" None None None) None None None start
      = (w1, Ok self) /\
    build self None w1 = (w2, Ok sp) /\
    let factory := pipeline (StreamProcessor.processor_factory sp) in
    KafkaConsumerStrategyFactory.processes factory = None /\
    BatchWriter.metrics (KafkaConsumerStrategyFactory.collector factory) = "metrics".
Proof.
  unfold init, build. construct_on Hinit w1 self.
  assemble_on collaborators Hinit Hrun (@None Z) w2 sp.
  exists w1, self, w2, sp. split; [exact Hinit|]. split; [exact Hrun|].
  destruct (execution_parameters_passed _ _ _ _ _ _ _ _ _ _ _ _ _ _ _ _ _ Hinit Hrun)
    as (Hprocesses & _ & _ & _ & _ & _ & Hmetrics).
  split; [exact Hprocesses | exact Hmetrics].
Defined.

Lemma whole_seconds_bound_witness :
  exists w1 self w2 sp,
    @ConsumerBuilder.__init__ objects collaborators
      "errors" (params "ingest-group" None None None) single_process
      50000 (1000 * 5) "metrics" None None None None None start = (w1, Ok self) /\
    build self None w1 = (w2, Ok sp) /\
    KafkaConsumerStrategyFactory.max_batch_time
      (pipeline (StreamProcessor.processor_factory sp))
    = S754_finite false 5629499534213120 (-50).
Proof.
  unfold build. construct_on Hinit w1 self.
  assemble_on collaborators Hinit Hrun (@None Z) w2 sp.
  exists w1, self, w2, sp. split; [exact Hinit|]. split; [exact Hrun|].
  assert (Hbound := whole_seconds_bound _ _ _ _ 5 _ _ _ _ _ _ _ _ _ _ _ _
                      ltac:(lia) Hinit Hrun).
  assert (Hfive : Py.float_of_int 5 = Ok (S754_finite false 5629499534213120 (-50)))
    by (vm_compute; reflexivity).
  rewrite Hfive in Hbound. injection Hbound as <-. reflexivity.
Defined.

Lemma unset_settings_fallback_witness :
  exists w1 self w2 sp,
    init "errors" (params "other-group" None None None) None None None start
      = (w1, Ok self) /\
    build self None w1 = (w2, Ok sp) /\
    KafkaConsumer.configuration (StreamProcessor.consumer sp)
      !! "statistics.interval.ms" = None.
Proof.
  unfold init, build. construct_on Hinit w1 self.
  assemble_on collaborators Hinit Hrun (@None Z) w2 sp.
  exists w1, self, w2, sp. split; [exact Hinit|]. split; [exact Hrun|].
  destruct (unset_settings_fallback _ _ _ _ _ _ _ _ _ _ _ _ _ _ _ _ _ Hinit Hrun)
    as (_ & _ & Hunset); [intros default; reflexivity|].
  rewrite Hunset by (intros default; reflexivity).
  attributes Hinit. reflexivity.
Defined.

Lemma rebuild_shares_producer_witness :
  exists w1 self w2 sp1 w3 sp2,
    init "errors" (params "ingest-group" None None None) None None None start
      = (w1, Ok self) /\
    build self None w1 = (w2, Ok sp1) /\
    build self (Some 1) w2 = (w3, Ok sp2) /\
    producers_created (trace w3) = producers_created (trace w1) /\
    KafkaConsumer.client (StreamProcessor.consumer sp1)
      <> KafkaConsumer.client (StreamProcessor.consumer sp2).
Proof.
  unfold init, build. construct_on Hinit w1 self.
  assemble_on collaborators Hinit Hrun1 (@None Z) w2 sp1.
  edestruct (build_succeeds (H0 := collaborators) self (Some 1) w2)
    as (w3 & sp2 & Hrun2);
    [ attributes Hinit; vm_compute; reflexivity
    | attributes Hinit; vm_compute; reflexivity
    | reflexivity
    | attributes Hinit; cbn; intros ? [= <-]; reflexivity
    | reflexivity
    | ].
  exists w1, self, w2, sp1, w3, sp2.
  split; [exact Hinit|]. split; [exact Hrun1|]. split; [exact Hrun2|].
  destruct (rebuild_shares_producer _ _ _ _ _ _ _ _ Hrun1 Hrun2)
    as (Hproducers & Hclients & _).
  split; [exact Hproducers | exact Hclients].
Defined.

End on_the_installations.
